(** * Live weather dashboard: the fetchers of [app.py] and [fetch_weather.py]

    A shallow embedding of the two Python modules of the repository and the
    properties of their current-conditions projection and of the per-day
    forecast aggregation.

    Layout:
    - [Py]: the Python values a parsed JSON body is made of, and the
      built-in operations the sources apply to them ([dict.get], subscripts,
      truthiness, [min], [max], [sum], [sorted], slices, [Counter]);
    - [Http]: the [requests] calls, as a logged query to a server oracle;
    - [App]: [app.py] ([get_weather], [get_forecast], the script itself);
    - [FetchWeather]: [fetch_weather.py] ([get_weather], the command line);
    - the theorems. *)

From Stdlib Require Import QArith Qround Qabs Ascii String.
From stdpp Require Import gmap strings list sorting.

Open Scope Z_scope.
Set Warnings "-clear-no-such-hyp".

(** ** Python values and built-ins *)
Module Py.

(** What [resp.json()] returns: [None], [bool], a number, [str], [list] or
    [dict].  A number is the exact rational value of a finite [int] or
    [float]; an [int] and a [float] of equal value are the same number here,
    and [NaN] and the infinities, which [json.loads] accepts as well, have
    no counterpart: the theorems speak of bodies without them.  A [dict] is
    the list of its bindings, one for each key. *)
#[warnings="-register-all"]
Inductive json : Type :=
| JNull
| JBool (b : bool)
| JNum (q : Q)
| JStr (s : string)
| JArr (xs : list json)
| JObj (kvs : list (string * json)).

(** The exceptions the fetchers can raise. *)
Inductive exn : Type :=
| KeyError (k : string)
| IndexError
| TypeError
| AttributeError
| ValueError
| OverflowError
| RuntimeError (msg : string)
| RequestException
| HTTPError (status : Z)
| JSONDecodeError.

Inductive result (A : Type) : Type :=
| Ok (a : A)
| Raise (e : exn).
Arguments Ok {A} a.
Arguments Raise {A} e.

#[global] Instance result_ret : MRet result := fun _ a => Ok a.
#[global] Instance result_bind : MBind result := fun _ _ f m =>
  match m with Ok a => f a | Raise e => Raise e end.

(** [for x in l: acc = f(acc, x)], stopping at the first exception. *)
Fixpoint foldM {A B : Type} (f : A → B → result A) (acc : A) (l : list B)
  : result A :=
  match l with
  | [] => Ok acc
  | x :: l' => acc' ← f acc x; foldM f acc' l'
  end.

(** [[f(x) for x in l]]. *)
Fixpoint mapM {A B : Type} (f : A → result B) (l : list A) : result (list B) :=
  match l with
  | [] => Ok []
  | x :: l' => y ← f x; ys ← mapM f l'; Ok (y :: ys)
  end.

(** [[f(x) for x in l if c(x)]]: the condition is evaluated first, for each
    element in turn. *)
Fixpoint comprehension {A B : Type} (f : A → result B) (c : A → result bool)
    (l : list A) : result (list B) :=
  match l with
  | [] => Ok []
  | x :: l' =>
      b ← c x;
      if b : bool then y ← f x; ys ← comprehension f c l'; Ok (y :: ys)
      else comprehension f c l'
  end.

(** *** Dictionaries and subscripts *)

Fixpoint dict_get (kvs : list (string * json)) (k : string) : option json :=
  match kvs with
  | [] => None
  | (k', v) :: kvs' => if String.eqb k' k then Some v else dict_get kvs' k
  end.

(** [x.get(k, default)]; only a [dict] has the method. *)
Definition get (x : json) (k : string) (default : json) : result json :=
  match x with
  | JObj kvs => Ok (from_option id default (dict_get kvs k))
  | _ => Raise AttributeError
  end.

(** [x[k]] for a string [k]. *)
Definition item (x : json) (k : string) : result json :=
  match x with
  | JObj kvs =>
      match dict_get kvs k with
      | Some v => Ok v
      | None => Raise (KeyError k)
      end
  | _ => Raise TypeError
  end.

(** [x[0]]: the first element of a list, the first character of a string; a
    parsed [dict] has string keys only, so [0] is never one of them. *)
Definition item0 (x : json) : result json :=
  match x with
  | JArr (y :: _) => Ok y
  | JArr [] => Raise IndexError
  | JStr (String c _) => Ok (JStr (String c EmptyString))
  | JStr EmptyString => Raise IndexError
  | JObj _ => Raise (KeyError "0")
  | _ => Raise TypeError
  end.

(** [bool(x)]. *)
Definition truthy (x : json) : bool :=
  match x with
  | JNull => false
  | JBool b => b
  | JNum q => negb (Qeq_bool q 0)
  | JStr s => negb (String.eqb s "")
  | JArr xs => match xs with [] => false | _ => true end
  | JObj kvs => match kvs with [] => false | _ => true end
  end.

(** [iter(x)]: the elements of a list, the keys of a dict, the characters of
    a string. *)
Fixpoint chars (s : string) : list json :=
  match s with
  | EmptyString => []
  | String c s' => JStr (String c EmptyString) :: chars s'
  end.

Definition iter (x : json) : result (list json) :=
  match x with
  | JArr xs => Ok xs
  | JObj kvs => Ok (JStr <$> kvs.*1)
  | JStr s => Ok (chars s)
  | _ => Raise TypeError
  end.

(** *** Numbers, equality and order *)

(** [bool] is a subclass of [int]: [True] is [1] and [False] is [0]. *)
Definition as_num (x : json) : option Q :=
  match x with
  | JNum q => Some q
  | JBool true => Some 1%Q
  | JBool false => Some 0%Q
  | _ => None
  end.

Definition is_number (x : json) : bool :=
  match as_num x with Some _ => true | None => false end.

Definition Qlt_bool (p q : Q) : bool := negb (Qle_bool q p).

(** [a == b].  Dicts are equal when they bind the same keys to equal
    values. *)
Fixpoint eqb (a b : json) {struct a} : bool :=
  match a, b with
  | JNull, JNull => true
  | JStr s, JStr t => String.eqb s t
  | JArr xs, JArr ys =>
      (fix go (xs ys : list json) {struct xs} : bool :=
         match xs, ys with
         | [], [] => true
         | x :: xs', y :: ys' => eqb x y && go xs' ys'
         | _, _ => false
         end) xs ys
  | JObj kvs, JObj kvs' =>
      (fix go (l : list (string * json)) {struct l} : bool :=
         match l with
         | [] => true
         | (k, v) :: l' =>
             match dict_get kvs' k with
             | Some v' => eqb v v' && go l'
             | None => false
             end
         end) kvs
      && forallb (λ k, bool_decide (is_Some (dict_get kvs k))) kvs'.*1
  | _, _ =>
      match as_num a, as_num b with
      | Some p, Some q => Qeq_bool p q
      | _, _ => false
      end
  end.

(** [a < b]: numbers by value, strings and lists lexicographically; anything
    else is not ordered. *)
Fixpoint lt (a b : json) {struct a} : result bool :=
  match a, b with
  | JStr s, JStr t => Ok (negb (String.leb t s))
  | JArr xs, JArr ys =>
      (fix go (xs ys : list json) {struct xs} : result bool :=
         match xs, ys with
         | [], [] => Ok false
         | [], _ :: _ => Ok true
         | _ :: _, [] => Ok false
         | x :: xs', y :: ys' => if eqb x y then go xs' ys' else lt x y
         end) xs ys
  | _, _ =>
      match as_num a, as_num b with
      | Some p, Some q => Ok (Qlt_bool p q)
      | _, _ => Raise TypeError
      end
  end.

(** [a <= b]: as [a < b]; two lists are compared at the first index where
    they differ, and by their lengths when there is none. *)
Fixpoint le (a b : json) {struct a} : result bool :=
  match a, b with
  | JStr s, JStr t => Ok (String.leb s t)
  | JArr xs, JArr ys =>
      (fix go (xs ys : list json) {struct xs} : result bool :=
         match xs, ys with
         | [], _ => Ok true
         | _ :: _, [] => Ok false
         | x :: xs', y :: ys' => if eqb x y then go xs' ys' else le x y
         end) xs ys
  | _, _ =>
      match as_num a, as_num b with
      | Some p, Some q => Ok (Qle_bool p q)
      | _, _ => Raise TypeError
      end
  end.

(** [min(l)] and [max(l)]: the first smallest, the first largest element. *)
Definition min (l : list json) : result json :=
  match l with
  | [] => Raise ValueError
  | x :: l' => foldM (λ best y, b ← lt y best; Ok (if b : bool then y else best)) x l'
  end.

Definition max (l : list json) : result json :=
  match l with
  | [] => Raise ValueError
  | x :: l' => foldM (λ best y, b ← lt best y; Ok (if b : bool then y else best)) x l'
  end.

(** [sum(l)]: from [0], adding left to right.  The running total is exact
    and kept in lowest terms; it is Python's total as long as no addition
    rounds, which is so for [int] readings and for [float] readings whose
    partial sums are representable.  An [int] beyond the range of a [float]
    that meets a [float] makes Python's [sum] raise [OverflowError]: the
    theorems on [sum] returning bound the readings. *)
Definition add (acc : Q) (x : json) : result Q :=
  match as_num x with
  | Some q => Ok (Qred (acc + q))
  | None => Raise TypeError
  end.

Definition sum (l : list json) : result Q := foldM add 0%Q l.

(** *** [sorted] and slices *)

(** [sorted(keys)] on strings: code-point order. *)
Definition sorted (l : list string) : list string := merge_sort String.le l.

(** [l[:n]]; a negative [n] counts from the end. *)
Definition slice_to {A : Type} (l : list A) (n : Z) : list A :=
  if (0 <=? n)%Z then take (Z.to_nat n) l
  else take (Z.to_nat (Z.of_nat (length l) + n)) l.

(** *** [collections.Counter] *)

Definition hashable (x : json) : bool :=
  match x with
  | JArr _ | JObj _ => false
  | _ => true
  end.

(** Key equality of hashable values ([1 == 1.0 == True]). *)
Definition key_eqb (a b : json) : bool :=
  match as_num a, as_num b with
  | Some p, Some q => Qeq_bool p q
  | None, None =>
      match a, b with
      | JNull, JNull => true
      | JStr s, JStr t => String.eqb s t
      | _, _ => false
      end
  | _, _ => false
  end.

(** [c[x] += 1]: a new key goes to the end, so that the keys stay in the
    order they were first met. *)
Fixpoint incr (c : list (json * nat)) (x : json) : list (json * nat) :=
  match c with
  | [] => [(x, 1%nat)]
  | (k, n) :: c' => if key_eqb k x then (k, S n) :: c' else (k, n) :: incr c' x
  end.

Definition Counter (l : list json) : result (list (json * nat)) :=
  foldM (λ c x, if hashable x then Ok (incr c x) else Raise TypeError) [] l.

(** [c.most_common(1)]: [heapq.nlargest(1, ...)] is [max] by count over the
    items in dict order, which keeps the first of the largest. *)
Definition most_common_1 (c : list (json * nat)) : list (json * nat) :=
  match c with
  | [] => []
  | kn :: c' =>
      [fold_left (λ best kn', if (best.2 <? kn'.2)%nat then kn' else best) c' kn]
  end.

End Py.

(** ** The [requests] calls *)
Module Http.
Import Py.

(** A response: its status and what [resp.json()] gives. *)
Record response : Type := { status_code : Z; resp_json : result json }.

Definition query : Type := list (string * option string).

(** What a run does to the outside: the requests it sends and the Streamlit
    calls of the script that report or stop.  The rendering code of [app.py]
    (the header, the metrics, the forecast cards and the chart) is one
    event; the page configuration, the style sheet, the title and the input
    widgets are not logged. *)
Inductive event : Type :=
| Get (url : string) (params : query)
| StError (msg : string) (e : option exn)
| StInfo (msg : string)
| StStop
| StRender.

(** A computation that may raise and that extends the log of events. *)
Definition io (A : Type) : Type := list event → result A * list event.

#[global] Instance io_ret : MRet io := λ _ a log, (Ok a, log).
#[global] Instance io_bind : MBind io := λ _ _ f m log,
  match m log with
  | (Ok a, log') => f a log'
  | (Raise e, log') => (Raise e, log')
  end.

Definition lift {A : Type} (r : result A) : io A := λ log, (r, log).
Definition emit (e : event) : io unit := λ log, (Ok tt, log ++ [e]).

(** [try: m except Exception as e: h(e)]. *)
Definition try_except {A : Type} (m : io A) (h : exn → io A) : io A := λ log,
  match m log with
  | (Ok a, log') => (Ok a, log')
  | (Raise e, log') => h e log'
  end.

(** The subclasses of [requests.exceptions.RequestException]. *)
Definition is_RequestException (e : exn) : bool :=
  match e with
  | RequestException | HTTPError _ | JSONDecodeError => true
  | _ => false
  end.

Section requests.
(** The remote end: the answer to a GET, or [RequestException] when the
    connection fails or times out. *)
Variable server : string → query → result response.

(** [requests.get(url, params=params, timeout=10)]. *)
Definition requests_get (url : string) (params : query) : io response :=
  λ log, (server url params, log ++ [Get url params]).

(** [resp.raise_for_status()]. *)
Definition raise_for_status (resp : response) : result unit :=
  if (400 <=? status_code resp) && (status_code resp <? 600)
  then Raise (HTTPError (status_code resp)) else Ok tt.

(** What [data = resp.json()] is bound to after a GET that went through
    [raise_for_status]: the three calls without the log. *)
Definition body_of (url : string) (params : query) : result json :=
  resp ← server url params;
  _ ← raise_for_status resp;
  resp_json resp.
End requests.

End Http.

(** ** Calendar dates *)
Module Date.
Import Py.

Definition digit (n : Z) : ascii := ascii_of_nat (48 + Z.to_nat n).
Definition digits2 (n : Z) : string :=
  String (digit (n / 10)) (String (digit (n mod 10)) EmptyString).
Definition digits4 (n : Z) : string :=
  (digits2 (n / 100) +:+ digits2 (n mod 100))%string.

(** The civil date of a day number counted from 1970-01-01. *)
Definition civil (days : Z) : Z * Z * Z :=
  let z := days + 719468 in
  let era := z / 146097 in
  let doe := z - era * 146097 in
  let yoe := (doe - doe / 1460 + doe / 36524 - doe / 146096) / 365 in
  let doy := doe - (365 * yoe + yoe / 4 - yoe / 100) in
  let mp := (5 * doy + 2) / 153 in
  let d := doy - (153 * mp + 2) / 5 + 1 in
  let m := if mp <? 10 then mp + 3 else mp - 9 in
  let y := yoe + era * 400 + (if m <=? 2 then 1 else 0) in
  (y, m, d).

Definition isoformat (ymd : Z * Z * Z) : string :=
  let '(y, m, d) := ymd in
  (digits4 y +:+ "-" +:+ digits2 m +:+ "-" +:+ digits2 d)%string.

(** [datetime.fromtimestamp(ts).date().isoformat()] in a process whose time
    zone is UTC, for the whole-number timestamps of the examples; years
    outside 1..9999 are out of range.  The theorems take the conversion of
    the process as a parameter and use this one only to run examples. *)
Definition utc (ts : Q) : result string :=
  let '(y, m, d) := civil (Qfloor ts / 86400) in
  if (1 <=? y) && (y <=? 9999) then Ok (isoformat (y, m, d))
  else Raise ValueError.

End Date.

(** ** [app.py] *)
Module App.
Import Py Http.

(** The dict [get_weather] returns. *)
Module Weather.
Record t : Type := mk {
  city : json; country : json; temp : json; feels_like : json;
  humidity : json; pressure : json; description : json; icon : json;
  wind_speed : json; clouds : json; rain_1h : json;
  sunrise : json; sunset : json; dt : json }.
End Weather.

(** The dicts [get_forecast] appends to [result]. *)
Module Day.
Record t : Type := mk {
  date : string; temp_min : json; temp_max : json; rain_mm : Q;
  description : json; icon : json }.
End Day.

(** [not API_KEY]. *)
Definition falsy_key (k : option string) : bool :=
  match k with
  | None => true
  | Some s => String.eqb s ""
  end.

Definition weather_url : string := "https://api.openweathermap.org/data/2.5/weather".
Definition forecast_url : string := "https://api.openweathermap.org/data/2.5/forecast".

(** [{"q": city, "appid": API_KEY, "units": units}]. *)
Definition params (key : option string) (city units : string) : query :=
  [("q", Some city); ("appid", key); ("units", Some units)].

Section app.
Variable server : string → query → result response.
(** [datetime.fromtimestamp(ts).date().isoformat()] in the time zone of
    the process. *)
Variable fromtimestamp_date : Q → result string.
(** [API_KEY = os.getenv("OPENWEATHER_API_KEY")]. *)
Variable API_KEY : option string.

(** The body of [get_weather] from [data = resp.json()] on. *)
Definition weather_of (data : json) : result Weather.t :=
  sys ← get data "sys" (JObj []);
  main ← get data "main" (JObj []);
  weather0 ← (w ← get data "weather" (JArr [JObj []]); item0 w);
  city ← get data "name" JNull;
  country ← get sys "country" JNull;
  temp ← get main "temp" JNull;
  feels_like ← get main "feels_like" JNull;
  humidity ← get main "humidity" JNull;
  pressure ← get main "pressure" JNull;
  description ← get weather0 "description" JNull;
  icon ← get weather0 "icon" JNull;
  wind_speed ← (w ← get data "wind" (JObj []); get w "speed" JNull);
  clouds ← (c ← get data "clouds" (JObj []); get c "all" JNull);
  rain_1h ← (r ← get data "rain" JNull;
             if truthy r
             then r' ← get data "rain" (JObj []); get r' "1h" (JNum 0)
             else Ok (JNum 0));
  sunrise ← get sys "sunrise" JNull;
  sunset ← get sys "sunset" JNull;
  dt ← get data "dt" JNull;
  Ok (Weather.mk city country temp feels_like humidity pressure description
        icon wind_speed clouds rain_1h sunrise sunset dt).

Definition get_weather (city units : string) : io Weather.t :=
  resp ← requests_get server weather_url (params API_KEY city units);
  _ ← lift (raise_for_status resp);
  data ← lift (resp_json resp);
  lift (weather_of data).

(** [datetime.fromtimestamp(ts)] takes a number. *)
Definition date_of (ts : json) : result string :=
  match as_num ts with
  | Some q => fromtimestamp_date q
  | None => Raise TypeError
  end.

(** One turn of the grouping loop; [daily] is a [defaultdict(list)]. *)
Definition group (daily : gmap string (list json)) (item : json)
  : result (gmap string (list json)) :=
  ts ← get item "dt" JNull;
  match ts with
  | JNull => Ok daily
  | _ => date ← date_of ts; Ok (<[date := daily !!! date ++ [item]]> daily)
  end.

(** The first element of the first pair of [most_common(1)]. *)
Definition most_common (l : list json) : result json :=
  c ← Counter l;
  match most_common_1 c with
  | kn :: _ => Ok kn.1
  | [] => Raise IndexError
  end.

(** The body of the loop over the selected dates: [None] stands for
    [continue]. *)
Definition summarize (d : string) (items : list json) : result (option Day.t) :=
  temps ← comprehension (λ x, m ← item x "main"; item m "temp")
                        (λ x, m ← get x "main" JNull; Ok (truthy m)) items;
  rains ← mapM (λ x, r ← get x "rain" (JObj []); get r "3h" (JNum 0)) items;
  descs ← comprehension
             (λ x, w ← item x "weather"; w0 ← item0 w; item w0 "description")
             (λ x, w ← get x "weather" JNull; Ok (truthy w)) items;
  icons ← comprehension
             (λ x, w ← item x "weather"; w0 ← item0 w; item w0 "icon")
             (λ x, w ← get x "weather" JNull; Ok (truthy w)) items;
  match temps with
  | [] => Ok None
  | _ =>
      temp_min ← min temps;
      temp_max ← max temps;
      rain_mm ← sum rains;
      description ← match descs with [] => Ok (JStr "") | _ => most_common descs end;
      icon ← match icons with [] => Ok JNull | _ => most_common icons end;
      Ok (Some (Day.mk d temp_min temp_max rain_mm description icon))
  end.

(** The body of [get_forecast] from [data = resp.json()] on. *)
Definition forecast_of (data : json) (days : Z) : result (list Day.t) :=
  l ← get data "list" (JArr []);
  items ← iter l;
  daily ← foldM group ∅ items;
  let days_sorted := sorted (elements (dom daily)) in
  foldM (λ result d,
           s ← summarize d (daily !!! d);
           Ok (match s with Some s => result ++ [s] | None => result end))
        [] (slice_to days_sorted days).

Definition get_forecast (city units : string) (days : Z) : io (list Day.t) :=
  resp ← requests_get server forecast_url (params API_KEY city units);
  _ ← lift (raise_for_status resp);
  data ← lift (resp_json resp);
  lift (forecast_of data days).

(** The script: the credential check, the inputs and the two fetches.
    [st.stop()] ends the run. *)
Definition script (city unit_choice : string) : io unit :=
  if falsy_key API_KEY then
    _ ← emit (StError "Missing OPENWEATHER_API_KEY in .env file (add it to your .env)" None);
    emit StStop
  else
    let units := if String.prefix "Metric" unit_choice then "metric" else "imperial" in
    if String.eqb city "" then
      emit (StInfo "Type a city name above (for example: 'Mumbai' or 'London') and press Enter.")
    else
      fetched ← try_except
        (weather ← get_weather city units;
         forecast ← get_forecast city units 5;
         mret (Some (weather, forecast)))
        (λ e,
           _ ← emit (StError (if is_RequestException e
                              then "Network / API error: "
                              else "Error fetching weather: ") (Some e));
           _ ← emit StStop;
           mret None);
      match fetched with
      | Some _ => emit StRender
      | None => mret tt
      end.
End app.

End App.

(** ** [fetch_weather.py] *)
Module FetchWeather.
Import Py Http.

(** The dict [get_weather] returns. *)
Module Weather.
Record t : Type := mk {
  city : json; temp : json; feels_like : json; humidity : json;
  pressure : json; description : json; icon : json; wind_speed : json }.
End Weather.

Definition weather_url : string := "http://api.openweathermap.org/data/2.5/weather".

Section fetch_weather.
Variable server : string → query → result response.
Variable API_KEY : option string.

(** The body of [get_weather] from [data = resp.json()] on. *)
Definition weather_of (data : json) : result Weather.t :=
  city ← get data "name" JNull;
  temp ← (m ← item data "main"; item m "temp");
  feels_like ← (m ← item data "main"; get m "feels_like" JNull);
  humidity ← (m ← item data "main"; get m "humidity" JNull);
  pressure ← (m ← item data "main"; get m "pressure" JNull);
  description ← (w ← item data "weather"; w0 ← item0 w; item w0 "description");
  icon ← (w ← item data "weather"; w0 ← item0 w; item w0 "icon");
  wind_speed ← (w ← get data "wind" (JObj []); get w "speed" JNull);
  Ok (Weather.mk city temp feels_like humidity pressure description icon
        wind_speed).

Definition get_weather (city units : string) : io Weather.t :=
  if App.falsy_key API_KEY
  then lift (Raise (RuntimeError "Set OPENWEATHER_API_KEY in .env"))
  else
    resp ← requests_get server weather_url (App.params API_KEY city units);
    _ ← lift (raise_for_status resp);
    data ← lift (resp_json resp);
    lift (weather_of data).
End fetch_weather.

End FetchWeather.

(** ** What the properties are stated with *)
Module Spec.
Import Py Http.

(** The field [k] of a JSON object, when it is there. *)
Definition field (x : json) (k : string) : option json :=
  match x with
  | JObj kvs => dict_get kvs k
  | _ => None
  end.

(** The samples of a forecast body. *)
Definition samples (data : json) : list json :=
  match field data "list" with
  | Some (JArr xs) => xs
  | _ => []
  end.

Section dates.
Variable fromtimestamp_date : Q → result string.

(** The calendar date of a sample that bears a timestamp. *)
Definition sample_date (x : json) : option string :=
  ts ← field x "dt";
  match App.date_of fromtimestamp_date ts with
  | Ok d => Some d
  | Raise _ => None
  end.

Definition distinct_dates (data : json) : gset string :=
  list_to_set (omap sample_date (samples data)).

(** The samples of one date, in the order of the response. *)
Definition samples_on (data : json) (d : string) : list json :=
  filter (λ x, sample_date x = Some d) (samples data).

(** The dates the loop of [get_forecast] goes through. *)
Definition selected (data : json) (days : Z) : list string :=
  slice_to (sorted (elements (distinct_dates data))) days.
End dates.

(** The readings of a sample. *)
Definition temperature (x : json) : option json :=
  m ← field x "main"; field m "temp".

Definition rain_3h (x : json) : Q :=
  default 0%Q (r ← field x "rain"; v ← field r "3h"; as_num v).

Definition weather_entry (x : json) : option json :=
  w ← field x "weather";
  match w with
  | JArr (w0 :: _) => Some w0
  | _ => None
  end.

Definition description_of (x : json) : option json :=
  w0 ← weather_entry x; field w0 "description".

Definition icon_of (x : json) : option json :=
  w0 ← weather_entry x; field w0 "icon".

(** The value of a number. *)
Definition value (t : json) : Q := default 0%Q (as_num t).

Definition numeric (t : json) : Prop := is_Some (as_num t).

(** Every temperature reading of the response is a number: a finite [int]
    or [float], or a [bool]. *)
Definition numeric_temperatures (data : json) : bool :=
  forallb (λ x, match temperature x with Some t => is_number t | None => true end)
          (samples data).


(** Sum of rationals. *)
Definition total (l : list Q) : Q := foldr Qplus 0%Q l.

(** How often [v] occurs in [l]. *)
Definition count (v : json) (l : list json) : nat :=
  length (filter (λ x, key_eqb v x = true) l).

(** [v] is the most frequent element of [l], the first-met one among those
    that occur as often: [v] stands in [l], whatever comes before its first
    occurrence occurs less often, whatever comes after occurs at most as
    often. *)
Definition most_frequent (l : list json) (v : json) : Prop :=
  ∃ l1 l2, l = l1 ++ v :: l2 ∧
    Forall (λ w, (count w l < count v l)%nat) l1 ∧
    Forall (λ w, (count w l ≤ count v l)%nat) l2.

(** The summary value of a list of descriptions or icons. *)
Definition representative (l : list json) (default : json) (v : json) : Prop :=
  match l with
  | [] => v = default
  | _ => most_frequent l v
  end.

(** The keys of a counter: the elements in the order they are first met. *)
Definition seen (ks : list json) (x : json) : bool :=
  existsb (λ k, key_eqb k x) ks.

Definition firsts (l : list json) : list json :=
  fold_left (λ ks x, if seen ks x then ks else ks ++ [x]) l [].

(** The keys of a counter differ pairwise. *)
Definition distinct_keys (ks : list json) : Prop :=
  StronglySorted (λ a b, key_eqb a b = false) ks.

(** The counter with keys [ks] after the elements [p]. *)
Definition tally (ks p : list json) : list (json * nat) :=
  (λ k, (k, count k p)) <$> ks.

(** The value under [k], or null. *)
Definition or_null (o : option json) : json := default JNull o.

(** The value under [k'] of the object under [k]. *)
Definition nested (data : json) (k k' : string) : option json :=
  o ← field data k; field o k'.

(** The body lacks the [rain] object, or the object lacks its [1h] field. *)
Definition lacks_rain_1h (data : json) : Prop :=
  field data "rain" = None ∨
  ∃ r, field data "rain" = Some (JObj r) ∧ dict_get r "1h" = None.

(** The forecast body has no samples. *)
Definition no_samples (data : json) : Prop :=
  ∃ kvs, data = JObj kvs ∧
    (dict_get kvs "list" = None ∨ dict_get kvs "list" = Some (JArr [])).

(** A call that fails up front, whatever the log: it raises and sends
    nothing. *)
Definition rejects_without_fetch {A : Type} (f : io A) : Prop :=
  ∃ e, ∀ log, f log = (Raise e, log).

(** The least that "never a per-request error" asks of a fetcher: with a
    missing credential, a call is not one that fails up front. *)
Definition never_per_request_error {A : Type}
    (fetcher : (string → query → result response) → option string →
               string → string → io A) : Prop :=
  ∀ server key city units,
    App.falsy_key key = true →
    ¬ rejects_without_fetch (fetcher server key city units).

(** A fetcher without a credential check of its own: the credential reaches
    the outcome of a call only through what the server answers to the
    request at [url], so that two credentials the server answers alike give
    the same outcome. *)
Definition credential_only_forwarded {A : Type} (url : string)
    (fetcher : (string → query → result response) → option string →
               string → string → io A) : Prop :=
  ∀ server key key' city units log,
    server url (App.params key city units) =
    server url (App.params key' city units) →
    (fetcher server key city units log).1 =
    (fetcher server key' city units log).1.


End Spec.

(** ** Well-formed forecast bodies *)
Module Shape.
Import Py Spec.

Section dates.
Variable fromtimestamp_date : Q → result string.

(** The timestamp, when there is one, is a number in range. *)
Definition dt_ok (x : json) : bool :=
  match field x "dt" with
  | None | Some JNull => true
  | Some ts =>
      match App.date_of fromtimestamp_date ts with
      | Ok _ => true
      | Raise _ => false
      end
  end.

(** [main], when it is there and not empty, is an object with a number
    under [temp]. *)
Definition main_ok (x : json) : bool :=
  match field x "main" with
  | None => true
  | Some m =>
      negb (truthy m) ||
      match field m "temp" with Some t => is_number t | None => false end
  end.

(** [rain], when it is there, is an object; its [3h], when it is there,
    is a number. *)
Definition rain_ok (x : json) : bool :=
  match field x "rain" with
  | None => true
  | Some (JObj r) =>
      match dict_get r "3h" with Some v => is_number v | None => true end
  | Some _ => false
  end.

(** [weather], when it is there and not empty, is a list whose first
    entry is an object with a description and an icon. *)
Definition weather_ok (x : json) : bool :=
  match field x "weather" with
  | None => true
  | Some w =>
      negb (truthy w) ||
      match w with
      | JArr (JObj e :: _) =>
          match dict_get e "description", dict_get e "icon" with
          | Some dsc, Some ic => hashable dsc && hashable ic
          | _, _ => false
          end
      | _ => false
      end
  end.

Definition sample_ok (x : json) : bool :=
  match x with
  | JObj _ => dt_ok x && main_ok x && rain_ok x && weather_ok x
  | _ => false
  end.

(** An object whose [list], when it is there, is a list of such
    samples. *)
Definition well_formed (data : json) : bool :=
  match data with
  | JObj kvs =>
      match dict_get kvs "list" with
      | None => true
      | Some (JArr xs) => forallb sample_ok xs
      | Some _ => false
      end
  | _ => false
  end.
End dates.

(** The nested values of a current-conditions body, when they are there,
    are objects; [weather] is a list that starts with an object; [rain] may
    also be null or empty. *)
Definition object_or_absent (data : json) (k : string) : bool :=
  match field data k with
  | None | Some (JObj _) => true
  | Some _ => false
  end.

Definition current_ok (data : json) : bool :=
  match data with
  | JObj _ =>
      object_or_absent data "sys" && object_or_absent data "main" &&
      match field data "weather" with
      | None | Some (JArr (JObj _ :: _)) => true
      | Some _ => false
      end &&
      object_or_absent data "wind" && object_or_absent data "clouds" &&
      match field data "rain" with
      | None | Some (JObj _) => true
      | Some r => negb (truthy r)
      end
  | _ => false
  end.

End Shape.

(** ** Bodies to run the fetchers on *)
Module Examples.
Import Py Http.

(** A server that answers every request with status 200 and the body
    [data]. *)
Definition reply (data : json) : string → query → result response :=
  λ _ _, Ok {| status_code := 200; resp_json := Ok data |}.

Definition key : option string := Some "0123456789abcdef".

Definition weather (d i : string) : string * json :=
  ("weather", JArr [JObj [("description", JStr d); ("icon", JStr i)]]).

(** Three dates: four samples on 1970-01-01, with the 3-hour rain values
    0, 2.5, none and 1.0, one on 1970-01-02, one on 1970-01-03 without
    [main], and a sample without timestamp. *)
Definition three_days : json :=
  JObj [("list", JArr [
    JObj [("dt", JNum 97200); ("main", JObj [("temp", JNum (5 # 2))]);
          weather "clear sky" "01d"];
    JObj [("dt", JNum 0); ("main", JObj [("temp", JNum (1 # 2))]);
          ("rain", JObj [("3h", JNum 0)]); weather "light rain" "10d"];
    JObj [("dt", JNum 10800); ("main", JObj [("temp", JNum (3 # 2))]);
          ("rain", JObj [("3h", JNum (5 # 2))]); weather "clear sky" "01d"];
    JObj [("dt", JNum 21600); ("main", JObj [("temp", JNum (-1 # 2))]);
          weather "light rain" "10d"];
    JObj [("dt", JNum 32400); ("main", JObj [("temp", JNum 4)]);
          ("rain", JObj [("3h", JNum 1)]); weather "light rain" "10d"];
    JObj [("dt", JNum 180000); ("rain", JObj [("3h", JNum 1)])];
    JObj [("main", JObj [("temp", JNum 30)])]])].

(** One date whose samples carry the given descriptions. *)
Definition described (descs : list string) : json :=
  JObj [("list", JArr ((λ d,
    JObj [("dt", JNum 3600); ("main", JObj [("temp", JNum 20)]);
          weather d d]) <$> descs))].


(** One sample whose [main] has no [temp]. *)
Definition main_without_temp : json :=
  JObj [("list", JArr [
    JObj [("dt", JNum 3600); ("main", JObj [("humidity", JNum 80)])]])].



(** Current conditions without [rain], [sys] and [wind]. *)
Definition london : json :=
  JObj [("name", JStr "London"); ("main", JObj [("temp", JNum (25 # 2))]);
        weather "clear sky" "01d"; ("dt", JNum 1700000000)].

(** Current conditions whose [rain] object has no [1h]. *)
Definition london_rain_3h : json :=
  JObj [("name", JStr "London"); ("rain", JObj [("3h", JNum 2)])].

(** Current conditions with an empty [weather] list. *)
Definition empty_weather : json :=
  JObj [("name", JStr "London"); ("main", JObj [("temp", JNum (25 # 2))]);
        ("weather", JArr [])].

(** Current conditions whose [main] has no [temp]. *)
Definition no_temp : json :=
  JObj [("name", JStr "London"); ("main", JObj [("humidity", JNum 80)]);
        weather "clear sky" "01d"].

(** The summaries a call returned. *)
Definition emitted (r : result (list App.Day.t) * list event) : list App.Day.t :=
  match r.1 with
  | Ok l => l
  | Raise _ => []
  end.

Definition descriptions (r : result (list App.Day.t) * list event) : list json :=
  match r.1 with
  | Ok l => App.Day.description <$> l
  | Raise _ => []
  end.

Definition rainfalls (r : result (list App.Day.t) * list event) : list Q :=
  match r.1 with
  | Ok l => App.Day.rain_mm <$> l
  | Raise _ => []
  end.

End Examples.

(** ** The command line of [fetch_weather.py] *)
Module Cli.
Import Py Http.

(** What the program prints: a line of text, or the line of an [except]
    clause, its prefix followed by the exception. *)
Inductive line : Type :=
| Text (s : string)
| Caught (prefix : string) (e : exn).

Section main.
Variable server : string → query → result response.
Variable API_KEY : option string.
(** [str.strip], [str.title] and the [str()] of a value in an f-string. *)
Variable strip : string → string.
Variable title : string → string.
Variable str : json → string.

(** [except requests.HTTPError as e] comes first, [except Exception as e]
    takes the rest. *)
Definition handler (e : exn) : line :=
  match e with
  | HTTPError _ => Caught "City not found or API error:" e
  | _ => Caught "Error:" e
  end.

(** The four [print] calls; only a [str] has the method [title]. *)
Definition report (w : FetchWeather.Weather.t) : list line * result unit :=
  let weather_in :=
    Text ("Weather in " +:+ str (FetchWeather.Weather.city w) +:+ ":") in
  match FetchWeather.Weather.description w with
  | JStr d =>
      ([weather_in;
        Text ("  " +:+ title d);
        Text ("  Temp: " +:+ str (FetchWeather.Weather.temp w) +:+
              "°C (feels like " +:+
              str (FetchWeather.Weather.feels_like w) +:+ "°C)");
        Text ("  Humidity: " +:+ str (FetchWeather.Weather.humidity w) +:+
              "%  Wind: " +:+ str (FetchWeather.Weather.wind_speed w) +:+
              " m/s")],
       Ok tt)
  | _ => ([weather_in], Raise AttributeError)
  end.

(** The [__main__] block, from the line typed at the prompt: the lines
    printed and the requests sent. *)
Definition main (typed : string) : list line * list event :=
  let city := strip typed in
  match FetchWeather.get_weather server API_KEY city "metric" [] with
  | (Ok w, log) =>
      match report w with
      | (lines, Ok _) => (lines, log)
      | (lines, Raise e) => (lines ++ [handler e], log)
      end
  | (Raise e, log) => ([handler e], log)
  end.
End main.

End Cli.

(** ** More to state properties with *)
Module Extra.
Import Py Http Spec.

Definition present (o : option json) : bool :=
  match o with Some _ => true | None => false end.

(** What the body gives for the rainfall of the last hour. *)
Definition rain_1h_of (data : json) : json :=
  match field data "rain" with
  | Some r => if truthy r then default (JNum 0) (field r "1h") else JNum 0
  | None => JNum 0
  end.

(** The body has what [get_weather] of [fetch_weather.py] subscripts: an
    object [main] with [temp], a [weather] list that starts with an object
    with [description] and [icon]; [wind], when it is there, is an object. *)
Definition required_ok (data : json) : bool :=
  match data with
  | JObj _ =>
      match field data "main" with
      | Some (JObj m) => present (dict_get m "temp")
      | _ => false
      end &&
      match field data "weather" with
      | Some (JArr (JObj e :: _)) =>
          present (dict_get e "description") && present (dict_get e "icon")
      | _ => false
      end &&
      Shape.object_or_absent data "wind"
  | _ => false
  end.

(** Some sample has a temperature reading. *)
Definition has_reading (items : list json) : bool :=
  match omap temperature items with
  | [] => false
  | _ => true
  end.



(** No 3-hour rainfall reading of the response is negative. *)
Definition nonnegative_rain (data : json) : bool :=
  forallb (λ x, Qle_bool 0 (rain_3h x)) (samples data).

(** The 3-hour rainfall readings of the response add up, in absolute value,
    to at most 2^1000: every reading and every running total of [sum] is
    then within the range of a [float], and [sum] never has to convert an
    [int] that is too large for one. *)
Definition rain_in_range (data : json) : bool :=
  Qle_bool (total ((λ x, Qabs (rain_3h x)) <$> samples data))
           (inject_Z (2 ^ 1000)).

(** The units of the script and the text of its error box. *)
Definition chosen_units (unit_choice : string) : string :=
  if String.prefix "Metric" unit_choice then "metric" else "imperial".

Definition error_text (e : exn) : string :=
  if is_RequestException e then "Network / API error: "
  else "Error fetching weather: ".

(** A server that fails to connect. *)
Definition unreachable : string → query → result response :=
  λ _ _, Raise RequestException.

(** A server that answers with the status [status] and the body [data]. *)
Definition answer (status : Z) (data : json) : string → query → result response :=
  λ _ _, Ok {| status_code := status; resp_json := Ok data |}.

(** A server that answers the current-conditions request with one body and
    the forecast request with another. *)
Definition serve (current forecast : result json)
  : string → query → result response :=
  λ url _, Ok {| status_code := 200;
                 resp_json := if String.eqb url App.forecast_url
                              then forecast else current |}.

(** Stand-ins for [str.strip], [str.title] and [str()] in the runs below. *)
Definition keep (s : string) : string := s.
Definition show (x : json) : string :=
  match x with
  | JStr s => s
  | JNull => "None"
  | _ => "?"
  end.

End Extra.

(** ** The fetches *)
Section fetches.
Import Py Http.
Variable server : string → query → result response.
Variable fromtimestamp_date : Q → result string.
Variable API_KEY : option string.

Lemma bind_Ok {A B : Type} (m : result A) (f : A → result B) (b : B) :
  m ≫= f = Ok b → ∃ a, m = Ok a ∧ f a = Ok b.
Proof. destruct m as [a|e]; simpl; [eauto | discriminate]. Qed.

Lemma get_weather_body (city units : string) (log : list event) :
  App.get_weather server API_KEY city units log =
  (body_of server App.weather_url (App.params API_KEY city units)
     ≫= App.weather_of,
   log ++ [Get App.weather_url (App.params API_KEY city units)]).
Proof.
  unfold App.get_weather, body_of, requests_get, lift, mbind, io_bind, result_bind.
  destruct (server _ _) as [resp|e]; [|done].
  destruct (raise_for_status resp); [|done].
  by destruct (resp_json resp).
Qed.

Lemma get_forecast_body (city units : string) (days : Z) (log : list event) :
  App.get_forecast server fromtimestamp_date API_KEY city units days log =
  (body_of server App.forecast_url (App.params API_KEY city units)
     ≫= λ data, App.forecast_of fromtimestamp_date data days,
   log ++ [Get App.forecast_url (App.params API_KEY city units)]).
Proof.
  unfold App.get_forecast, body_of, requests_get, lift, mbind, io_bind, result_bind.
  destruct (server _ _) as [resp|e]; [|done].
  destruct (raise_for_status resp); [|done].
  by destruct (resp_json resp).
Qed.
End fetches.

(** ** Grouping the samples by date *)
Section grouping.
Import Py Http Spec.
Variable fromtimestamp_date : Q → result string.

Local Abbreviation sample_date := (sample_date fromtimestamp_date).
Local Abbreviation group := (App.group fromtimestamp_date).

Lemma group_spec (daily daily' : gmap string (list json)) (x : json) :
  group daily x = Ok daily' →
  (∃ kvs, x = JObj kvs) ∧
  daily' = match sample_date x with
           | Some d => <[d := daily !!! d ++ [x]]> daily
           | None => daily
           end.
Proof.
  unfold App.group, Spec.sample_date. intros H.
  destruct x as [| | | | |kvs]; try discriminate. split; [eauto|].
  simpl in *. destruct (dict_get kvs "dt") as [ts|]; simpl in *.
  - destruct ts; simpl in *; try (by inversion H);
      match type of H with
      | context [App.date_of ?f ?t] => destruct (App.date_of f t); simpl in *
      end; by inversion H.
  - by inversion H.
Qed.

Lemma foldM_group (items : list json) (daily daily' : gmap string (list json)) :
  foldM group daily items = Ok daily' →
  Forall (λ x, ∃ kvs, x = JObj kvs) items ∧
  dom daily' = dom daily ∪ list_to_set (omap sample_date items) ∧
  ∀ d, daily' !!! d =
       daily !!! d ++ filter (λ x, sample_date x = Some d) items.
Proof.
  revert daily. induction items as [|x items IH]; intros daily H; simpl in H.
  - inversion H; subst. split; [constructor|]. split; [set_solver|].
    intros d. by rewrite filter_nil, app_nil_r.
  - apply bind_Ok in H as (daily1 & Hg & H).
    apply group_spec in Hg as [Hobj ->].
    apply IH in H as (Hall & Hdom & Hlook). split; [by constructor|].
    destruct (sample_date x) as [dx|] eqn:Hx.
    + split.
      * rewrite Hdom, dom_insert_L. simpl. rewrite Hx. set_solver.
      * intros d. rewrite Hlook, filter_cons. destruct (decide (dx = d)) as [->|Hne].
        -- rewrite lookup_total_insert_eq, decide_True by done.
           by rewrite <- app_assoc.
        -- rewrite lookup_total_insert_ne, decide_False by congruence. done.
    + split.
      * rewrite Hdom. simpl. by rewrite Hx.
      * intros d. rewrite Hlook, filter_cons, decide_False by congruence. done.
Qed.

(** After the grouping loop, [daily] holds the distinct dates of the
    response, each with its samples in order. *)
Lemma grouped (data l : json) (items : list json)
    (daily : gmap string (list json)) :
  get data "list" (JArr []) = Ok l →
  iter l = Ok items →
  foldM group ∅ items = Ok daily →
  dom daily = distinct_dates fromtimestamp_date data ∧
  ∀ d, daily !!! d = samples_on fromtimestamp_date data d.
Proof.
  intros Hget Hiter Hfold.
  destruct data as [| | | | |kvs]; try discriminate. simpl in Hget.
  unfold distinct_dates, samples_on, samples. simpl.
  apply foldM_group in Hfold as (Hall & Hdom & Hlook).
  assert (items = match dict_get kvs "list" with
                  | Some (JArr xs) => xs
                  | _ => []
                  end) as <-.
  { destruct (dict_get kvs "list") as [v|]; simpl in Hget;
      inversion Hget; subst; [|by inversion Hiter].
    destruct l as [| | |s|xs|kvs']; try discriminate;
      simpl in Hiter; inversion Hiter; subst; try done.
    - destruct s as [|c s]; [done|]. simpl in Hall.
      apply Forall_cons in Hall as [[? ?] _]. discriminate.
    - destruct kvs' as [|[k v] kvs']; [done|]. simpl in Hall.
      apply Forall_cons in Hall as [[? ?] _]. discriminate. }
  split.
  - rewrite Hdom, dom_empty_L. set_solver.
  - intros d. rewrite Hlook. by rewrite lookup_total_empty.
Qed.
End grouping.

(** ** [Counter] and [most_common] *)
Section counter.
Import Py Spec.

Lemma key_eqb_comm (a b : json) : key_eqb a b = key_eqb b a.
Proof.
  unfold key_eqb.
  destruct (as_num a) as [p|] eqn:Ha, (as_num b) as [q|] eqn:Hb; try done.
  - apply Qeq_bool_comm.
  - destruct a, b; try done. apply String.eqb_sym.
Qed.

Lemma key_eqb_trans (a b c : json) :
  key_eqb a b = true → key_eqb b c = true → key_eqb a c = true.
Proof.
  unfold key_eqb.
  destruct (as_num a) as [p|] eqn:Ha, (as_num b) as [q|] eqn:Hb,
    (as_num c) as [r|] eqn:Hc; try done.
  - apply Qeq_bool_trans.
  - destruct a, b; try done; destruct c; try done.
    intros H1%String.eqb_eq H2%String.eqb_eq. subst. apply String.eqb_refl.
Qed.

Lemma key_eqb_refl (x : json) : hashable x = true → key_eqb x x = true.
Proof.
  unfold key_eqb. destruct x as [|[]| | | |]; try done; intros _; simpl.
  - apply Qeq_bool_refl.
  - apply String.eqb_refl.
Qed.

Lemma key_eqb_true_l (a b x : json) :
  key_eqb a b = true → key_eqb a x = key_eqb b x.
Proof.
  intros Hab. destruct (key_eqb b x) eqn:Hbx.
  - by eapply key_eqb_trans.
  - destruct (key_eqb a x) eqn:Hax; [|done].
    rewrite <- Hbx. symmetry. eapply key_eqb_trans; [|done].
    by rewrite key_eqb_comm.
Qed.

Lemma count_snoc (v x : json) (p : list json) :
  count v (p ++ [x]) = (count v p + if key_eqb v x then 1 else 0)%nat.
Proof.
  unfold count. rewrite filter_app, length_app, filter_cons, filter_nil.
  by destruct (key_eqb v x); simpl.
Qed.

Lemma count_key (a b : json) (l : list json) :
  key_eqb a b = true → count a l = count b l.
Proof.
  intros Hab. unfold count. f_equal. apply list_filter_iff.
  intros x. by rewrite (key_eqb_true_l a b x).
Qed.

Lemma count_0 (x : json) (p : list json) :
  (∀ w, w ∈ p → key_eqb x w = false) → count x p = 0%nat.
Proof.
  unfold count. induction p as [|w p IH]; intros H; [done|].
  rewrite filter_cons, decide_False.
  - apply IH. intros w' Hw'. apply H. by right.
  - rewrite H; [done | by left].
Qed.

Lemma seen_spec (ks : list json) (x : json) :
  seen ks x = true ↔ ∃ k, k ∈ ks ∧ key_eqb k x = true.
Proof.
  unfold seen. rewrite existsb_exists.
  split; intros (k & Hk & Hx); exists k; by rewrite ?list_elem_of_In in *.
Qed.

Lemma seen_false (ks : list json) (x k : json) :
  seen ks x = false → k ∈ ks → key_eqb k x = false.
Proof.
  intros Hs Hk. destruct (key_eqb k x) eqn:E; [|done].
  rewrite <- Hs. symmetry. apply seen_spec. eauto.
Qed.

Lemma incr_seen (ks p : list json) (x : json) :
  distinct_keys ks → seen ks x = true →
  incr (tally ks p) x = tally ks (p ++ [x]).
Proof.
  unfold tally. induction ks as [|k ks IH]; intros Hd Hs; [done|].
  inversion Hd as [|? ? Hd' Hk]; subst. simpl in *.
  rewrite count_snoc. destruct (key_eqb k x) eqn:Hkx.
  - rewrite Nat.add_1_r. f_equal. apply list_fmap_ext.
    intros i k' Hk'. rewrite count_snoc.
    assert (key_eqb k' x = false) as ->; [|by rewrite Nat.add_0_r].
    rewrite Forall_forall in Hk. rewrite key_eqb_comm.
    rewrite (key_eqb_true_l x k k') by (by rewrite key_eqb_comm).
    eapply Hk, list_elem_of_lookup_2, Hk'.
  - rewrite Nat.add_0_r. f_equal. by apply IH.
Qed.

Lemma incr_unseen (ks p : list json) (x : json) :
  seen ks x = false → count x p = 0%nat → hashable x = true →
  incr (tally ks p) x = tally (ks ++ [x]) (p ++ [x]).
Proof.
  unfold tally. intros Hs H0 Hx. induction ks as [|k ks IH]; simpl in *.
  - by rewrite count_snoc, H0, key_eqb_refl.
  - apply orb_false_iff in Hs as [Hkx Hs].
    rewrite Hkx, count_snoc, Hkx, Nat.add_0_r. f_equal. by apply IH.
Qed.

(** Every element met so far has its key. *)
Lemma unseen_count_0 (ks p : list json) (x : json) :
  Forall (λ w, seen ks w = true) p → seen ks x = false → count x p = 0%nat.
Proof.
  intros Hcov Hs. apply count_0. intros w Hw.
  rewrite Forall_forall in Hcov.
  apply Hcov, seen_spec in Hw as (k & Hk & Hkw).
  destruct (key_eqb x w) eqn:E; [|done].
  rewrite <- (seen_false ks x k Hs Hk). symmetry.
  eapply key_eqb_trans; [done|]. by rewrite key_eqb_comm.
Qed.

Lemma seen_app (ks ks' : list json) (x : json) :
  seen (ks ++ ks') x = seen ks x || seen ks' x.
Proof. unfold seen. apply existsb_app. Qed.

Lemma Counter_fold (l ks p : list json) (c : list (json * nat)) :
  distinct_keys ks → Forall (λ w, seen ks w = true) p →
  foldM (λ c x, if hashable x then Ok (incr c x) else Raise TypeError)
        (tally ks p) l = Ok c →
  Forall (λ x, hashable x = true) l ∧
  c = tally (fold_left (λ ks x, if seen ks x then ks else ks ++ [x]) l ks)
            (p ++ l).
Proof.
  revert ks p. induction l as [|x l IH]; intros ks p Hd Hcov H; simpl in *.
  - inversion H. by rewrite app_nil_r.
  - destruct (hashable x) eqn:Hx; [|discriminate]. simpl in H.
    rewrite (cons_middle x p l), app_assoc.
    destruct (seen ks x) eqn:Hs.
    + rewrite incr_seen in H by done.
      apply IH in H as [? ->]; [by split; [constructor|] | done |].
      apply Forall_app; split; [done|]. by repeat constructor.
    + rewrite incr_unseen in H by eauto using unseen_count_0.
      apply IH in H as [? ->]; [by split; [constructor|] | |].
      * apply StronglySorted_app_2; [|done|by repeat constructor].
        intros k1 k2 Hk1 ->%list_elem_of_singleton. by eapply seen_false.
      * apply Forall_app; split.
        -- eapply Forall_impl; [done|]. intros w Hw. simpl in Hw.
           by rewrite seen_app, Hw.
        -- repeat constructor. rewrite seen_app. simpl.
           by rewrite key_eqb_refl, orb_true_r.
Qed.

Lemma Counter_spec (l : list json) (c : list (json * nat)) :
  Counter l = Ok c →
  Forall (λ x, hashable x = true) l ∧ c = tally (firsts l) l.
Proof.
  unfold Counter. intros H.
  apply (Counter_fold l [] []) in H; [done|constructor|constructor].
Qed.

Lemma firsts_snoc (l : list json) (x : json) :
  firsts (l ++ [x]) =
  if seen (firsts l) x then firsts l else firsts l ++ [x].
Proof. unfold firsts. by rewrite fold_left_app. Qed.

Lemma firsts_cover (l : list json) :
  Forall (λ x, hashable x = true) l →
  Forall (λ w, seen (firsts l) w = true) l.
Proof.
  induction l as [|x l IH] using rev_ind; intros Hh; [constructor|].
  apply Forall_app in Hh as [Hl Hx]. rewrite Forall_singleton in Hx.
  rewrite firsts_snoc. apply Forall_app. destruct (seen (firsts l) x) eqn:Hs.
  - split; [by apply IH | by repeat constructor].
  - split.
    + eapply Forall_impl; [by apply IH|]. intros w Hw. simpl in Hw.
      by rewrite seen_app, Hw.
    + repeat constructor. rewrite seen_app. simpl.
      by rewrite key_eqb_refl, orb_true_r.
Qed.

(** The keys come in the order of their first occurrences. *)
Lemma firsts_order (l k1 k2 : list json) (v : json) :
  Forall (λ x, hashable x = true) l →
  firsts l = k1 ++ v :: k2 →
  ∃ l1 l2, l = l1 ++ v :: l2 ∧ Forall (λ w, seen k1 w = true) l1.
Proof.
  revert k2. induction l as [|x l IH] using rev_ind; intros k2 Hh Hf.
  - by destruct k1.
  - apply Forall_app in Hh as [Hl Hx]. rewrite firsts_snoc in Hf.
    destruct (seen (firsts l) x) eqn:Hs.
    + destruct (IH k2 Hl Hf) as (l1 & l2 & -> & H1).
      exists l1, (l2 ++ [x]). by rewrite <- app_assoc.
    + destruct k2 as [|y k2 _] using rev_ind.
      * apply app_inj_tail in Hf as [Hk <-]. exists l, []. split; [done|].
        rewrite <- Hk. by apply firsts_cover.
      * rewrite app_comm_cons, app_assoc in Hf.
        apply app_inj_tail in Hf as [Hk <-].
        destruct (IH k2 Hl Hk) as (l1 & l2 & -> & H1).
        exists l1, (l2 ++ [x]). by rewrite <- app_assoc.
Qed.

Lemma first_largest (rest pre mid : list (json * nat)) (best : json * nat) :
  Forall (λ e, (e.2 < best.2)%nat) pre →
  Forall (λ e, (e.2 ≤ best.2)%nat) mid →
  ∃ c1 c2,
    pre ++ best :: mid ++ rest =
    c1 ++ fold_left (λ best kn', if (best.2 <? kn'.2)%nat then kn' else best)
            rest best :: c2 ∧
    Forall (λ e, (e.2 < (fold_left (λ best kn', if (best.2 <? kn'.2)%nat
                                   then kn' else best) rest best).2)%nat) c1 ∧
    Forall (λ e, (e.2 ≤ (fold_left (λ best kn', if (best.2 <? kn'.2)%nat
                                   then kn' else best) rest best).2)%nat) c2.
Proof.
  revert pre mid best. induction rest as [|e rest IH]; intros pre mid best Hp Hm.
  - exists pre, mid. by rewrite app_nil_r.
  - simpl. destruct (best.2 <? e.2)%nat eqn:Hlt.
    + apply Nat.ltb_lt in Hlt.
      destruct (IH (pre ++ best :: mid) [] e) as (c1 & c2 & Heq & H1 & H2).
      * apply Forall_app; split; [|constructor; [done|]];
          eapply Forall_impl; try done; simpl; intros; lia.
      * constructor.
      * exists c1, c2. split; [|done]. rewrite <- Heq.
        by rewrite <- app_assoc.
    + apply Nat.ltb_ge in Hlt.
      destruct (IH pre (mid ++ [e]) best) as (c1 & c2 & Heq & H1 & H2);
        [done| |].
      * apply Forall_app; split; [done|]. by repeat constructor.
      * exists c1, c2. split; [|done]. rewrite <- Heq.
        by rewrite <- app_assoc.
Qed.

Lemma most_common_1_split (c : list (json * nat)) (kn : json * nat)
    (tl : list (json * nat)) :
  most_common_1 c = kn :: tl →
  ∃ c1 c2, c = c1 ++ kn :: c2 ∧
    Forall (λ e, (e.2 < kn.2)%nat) c1 ∧ Forall (λ e, (e.2 ≤ kn.2)%nat) c2.
Proof.
  destruct c as [|e c]; [done|]. simpl. intros [= <- <-].
  apply (first_largest c [] [] e); constructor.
Qed.

(** [most_common] returns the most frequent element, the first-met one
    among equally frequent ones. *)
Lemma most_common_spec (l : list json) (v : json) :
  App.most_common l = Ok v → most_frequent l v.
Proof.
  unfold App.most_common. intros H.
  apply bind_Ok in H as (c & Hc & H).
  apply Counter_spec in Hc as [Hh ->].
  destruct (most_common_1 _) as [|kn tl] eqn:Hm; [done|].
  inversion H; subst; clear H.
  apply most_common_1_split in Hm as (c1 & c2 & Hc & H1 & H2).
  unfold tally in Hc.
  apply fmap_app_inv in Hc as (k1 & k2' & -> & Hk2 & Hk).
  symmetry in Hk2. apply fmap_cons_inv in Hk2 as (k & k2 & -> & -> & ->).
  simpl in *.
  destruct (firsts_order l k1 k2 k Hh Hk) as (l1 & l2 & Hl & Hcov).
  exists l1, l2. split; [done|]. split.
  - rewrite Forall_forall in Hcov |- *. intros w Hw.
    apply Hcov, seen_spec in Hw as (k' & Hk' & Hkw).
    rewrite <- (count_key k' w) by done.
    rewrite Forall_fmap, Forall_forall in H1. by apply (H1 k').
  - pose proof (firsts_cover l Hh) as Hall.
    rewrite Forall_forall in Hall |- *. intros w Hw.
    assert (w ∈ l) as Hwl by (rewrite Hl; set_solver).
    apply Hall, seen_spec in Hwl as (k' & Hk' & Hkw).
    rewrite <- (count_key k' w) by done.
    rewrite Hk in Hk'. rewrite Forall_fmap, Forall_forall in H1, H2.
    apply elem_of_app in Hk' as [Hk'|Hk'].
    + apply Nat.lt_le_incl. by apply (H1 k').
    + apply elem_of_cons in Hk' as [->|Hk']; [done|]. by apply (H2 k').
Qed.
End counter.

(** ** The loop body: one date *)
Section one_date.
Import Py Spec.

Lemma comprehension_omap {A B : Type} (f : A → result B) (c : A → result bool)
    (g : A → option B) (l : list A) (ys : list B) :
  (∀ x, c x = Ok false → g x = None) →
  (∀ x y, c x = Ok true → f x = Ok y → g x = Some y) →
  comprehension f c l = Ok ys → ys = omap g l.
Proof.
  intros Hno Hyes. revert ys. induction l as [|x l IH]; intros ys H; simpl in H.
  - by inversion H.
  - apply bind_Ok in H as ([] & Hc & H).
    + apply bind_Ok in H as (y & Hf & H). apply bind_Ok in H as (ys' & Hl & H).
      inversion H; subst. simpl. by rewrite (Hyes x y), (IH ys').
    + simpl. rewrite (Hno x) by done. by apply IH.
Qed.

Lemma falsy_field (m : json) (k : string) : truthy m = false → field m k = None.
Proof. by destruct m as [| | | | |[]]. Qed.

Lemma temps_spec (items : list json) (temps : list json) :
  comprehension (λ x, m ← item x "main"; item m "temp")
                (λ x, m ← get x "main" JNull; Ok (truthy m)) items = Ok temps →
  temps = omap temperature items.
Proof.
  apply comprehension_omap; unfold temperature.
  - intros [| | | | |kvs] H; try done. simpl in *.
    destruct (dict_get kvs "main") as [m|]; [|done]. simpl in *.
    apply falsy_field. by inversion H.
  - intros [| | | | |kvs] y _ H; try done. simpl in *.
    destruct (dict_get kvs "main") as [m|]; [|done]. simpl in *.
    destruct m as [| | | | |mk]; try done. simpl in *.
    by destruct (dict_get mk "temp"); inversion H.
Qed.

Lemma entries_spec (k : string) (items : list json) (vs : list json) :
  comprehension (λ x, w ← item x "weather"; w0 ← item0 w; item w0 k)
                (λ x, w ← get x "weather" JNull; Ok (truthy w)) items = Ok vs →
  vs = omap (λ x, w0 ← weather_entry x; field w0 k) items.
Proof.
  apply comprehension_omap; unfold weather_entry.
  - intros [| | | | |kvs] H; try done. simpl in *.
    destruct (dict_get kvs "weather") as [w|]; [|done]. simpl in *.
    by destruct w as [| | | |[]|]; inversion H.
  - intros [| | | | |kvs] y _ H; try done. simpl in *.
    destruct (dict_get kvs "weather") as [w|]; [|done]. simpl in *.
    destruct w as [| | |[]|[|w0 ws]|]; try done; simpl in *.
    destruct w0 as [| | | | |ek]; try done. simpl in *.
    by destruct (dict_get ek k); inversion H.
Qed.

Lemma rain_reading (x v : json) (q : Q) :
  (r ← get x "rain" (JObj []); get r "3h" (JNum 0)) = Ok v →
  as_num v = Some q → rain_3h x = q.
Proof.
  unfold rain_3h. destruct x as [| | | | |kvs]; try done. simpl.
  destruct (dict_get kvs "rain") as [r|]; simpl.
  - destruct r as [| | | | |rk]; try done. simpl.
    destruct (dict_get rk "3h") as [v'|]; simpl; intros [= <-] Hq.
    + by rewrite Hq.
    + by inversion Hq.
  - intros [= <-] Hq. by inversion Hq.
Qed.

Lemma sum_fold (items rains : list json) (acc q : Q) :
  mapM (λ x, r ← get x "rain" (JObj []); get r "3h" (JNum 0)) items = Ok rains →
  foldM add acc rains = Ok q →
  (q == acc + total (rain_3h <$> items))%Q.
Proof.
  revert rains acc. induction items as [|x items IH]; intros rains acc Hm Hs.
  - inversion Hm; subst. inversion Hs; subst. simpl. ring.
  - simpl in Hm. apply bind_Ok in Hm as (v & Hv & Hm).
    apply bind_Ok in Hm as (vs & Hvs & Hm). inversion Hm; subst.
    simpl in Hs. apply bind_Ok in Hs as (acc' & Ha & Hs).
    unfold add in Ha. destruct (as_num v) as [qv|] eqn:Hq; [|done].
    inversion Ha; subst. rewrite (IH _ _ Hvs Hs). simpl.
    rewrite (rain_reading x v qv Hv Hq), Qred_correct.
    symmetry. apply Qplus_assoc.
Qed.

Lemma lt_numeric (a b : json) :
  numeric a → numeric b → lt a b = Ok (Qlt_bool (value a) (value b)).
Proof.
  unfold numeric, value. intros [p Hp] [q Hq].
  destruct a; try done; destruct b; try done; simpl in *;
    by rewrite ?Hp, ?Hq.
Qed.

Lemma min_fold (l : list json) (best r : json) :
  numeric best → Forall numeric l →
  foldM (λ best y, b ← lt y best; Ok (if b : bool then y else best)) best l = Ok r →
  numeric r ∧ (value r <= value best)%Q.
Proof.
  revert best. induction l as [|y l IH]; intros best Hb Hl H; simpl in H.
  - inversion H; subst. split; [done|apply Qle_refl].
  - apply Forall_cons in Hl as [Hy Hl].
    rewrite lt_numeric in H by done. simpl in H.
    unfold Qlt_bool in H. destruct (Qle_bool (value best) (value y)) eqn:E;
      simpl in H.
    + by apply IH.
    + apply IH in H as [Hr Hle]; [|done..]. split; [done|].
      eapply Qle_trans; [done|]. apply Qlt_le_weak, Qnot_le_lt.
      intros Hc%Qle_bool_iff. congruence.
Qed.

Lemma max_fold (l : list json) (best r : json) :
  numeric best → Forall numeric l →
  foldM (λ best y, b ← lt best y; Ok (if b : bool then y else best)) best l = Ok r →
  numeric r ∧ (value best <= value r)%Q.
Proof.
  revert best. induction l as [|y l IH]; intros best Hb Hl H; simpl in H.
  - inversion H; subst. split; [done|apply Qle_refl].
  - apply Forall_cons in Hl as [Hy Hl].
    rewrite lt_numeric in H by done. simpl in H.
    unfold Qlt_bool in H. destruct (Qle_bool (value y) (value best)) eqn:E;
      simpl in H.
    + by apply IH.
    + apply IH in H as [Hr Hle]; [|done..]. split; [done|].
      eapply Qle_trans; [|done]. apply Qlt_le_weak, Qnot_le_lt.
      intros Hc%Qle_bool_iff. congruence.
Qed.


(** What an emitted summary holds, in terms of the samples of its date. *)
Lemma summarize_Some (d : string) (items : list json) (s : App.Day.t) :
  App.summarize d items = Ok (Some s) →
  App.Day.date s = d ∧
  omap temperature items ≠ [] ∧
  min (omap temperature items) = Ok (App.Day.temp_min s) ∧
  max (omap temperature items) = Ok (App.Day.temp_max s) ∧
  (App.Day.rain_mm s == total (rain_3h <$> items))%Q ∧
  representative (omap description_of items) (JStr "") (App.Day.description s) ∧
  representative (omap icon_of items) JNull (App.Day.icon s).
Proof.
  unfold App.summarize. intros H.
  apply bind_Ok in H as (temps & ->%temps_spec & H).
  apply bind_Ok in H as (rains & Hrains & H).
  apply bind_Ok in H as (descs & ->%entries_spec & H).
  apply bind_Ok in H as (icons & ->%entries_spec & H).
  fold description_of icon_of in H.
  destruct (omap temperature items) as [|t ts] eqn:Ht; [done|].
  apply bind_Ok in H as (lo & Hlo & H). apply bind_Ok in H as (hi & Hhi & H).
  apply bind_Ok in H as (q & Hq & H). apply bind_Ok in H as (dsc & Hd & H).
  apply bind_Ok in H as (ic & Hi & H). inversion H; subst; clear H. simpl.
  repeat split; try done.
  - rewrite (sum_fold _ _ _ _ Hrains Hq). ring.
  - unfold representative. destruct (omap description_of items); [by inversion Hd|].
    by apply most_common_spec.
  - unfold representative. destruct (omap icon_of items); [by inversion Hi|].
    by apply most_common_spec.
Qed.

(** A date is dropped exactly when none of its samples has a temperature. *)
Lemma summarize_None (d : string) (items : list json) :
  App.summarize d items = Ok None → omap temperature items = [].
Proof.
  unfold App.summarize. intros H.
  apply bind_Ok in H as (temps & ->%temps_spec & H).
  apply bind_Ok in H as (rains & Hrains & H).
  apply bind_Ok in H as (descs & _ & H). apply bind_Ok in H as (icons & _ & H).
  destruct (omap temperature items) as [|t ts]; [done|].
  apply bind_Ok in H as (lo & Hlo & H). apply bind_Ok in H as (hi & Hhi & H).
  apply bind_Ok in H as (q & Hq & H). apply bind_Ok in H as (dsc & Hd & H).
  apply bind_Ok in H as (ic & Hi & H). by inversion H.
Qed.
End one_date.

(** ** The loop over the selected dates *)
Section aggregation.
Import Py Http Spec.
Variable fromtimestamp_date : Q → result string.

Local Abbreviation samples_on := (samples_on fromtimestamp_date).
Local Abbreviation selected := (selected fromtimestamp_date).
Local Abbreviation forecast_of := (App.forecast_of fromtimestamp_date).

Lemma loop_spec (daily : gmap string (list json)) (sel : list string)
    (acc result : list App.Day.t) :
  foldM (λ result d,
           s ← App.summarize d (daily !!! d);
           Ok (match s with Some s => result ++ [s] | None => result end))
        acc sel = Ok result →
  ∃ outs, Forall2 (λ d o, App.summarize d (daily !!! d) = Ok o) sel outs ∧
          result = acc ++ omap id outs.
Proof.
  revert acc. induction sel as [|d sel IH]; intros acc H; simpl in H.
  - inversion H; subst. exists []. by rewrite app_nil_r.
  - apply bind_Ok in H as (acc' & Hs & H).
    apply bind_Ok in Hs as (o & Ho & Hs). inversion Hs; subst; clear Hs.
    apply IH in H as (outs & Hall & ->). exists (o :: outs).
    split; [by constructor|]. destruct o; simpl; [|done].
    by rewrite <- app_assoc.
Qed.

(** The result of the aggregation: the summaries of the selected dates
    that were not dropped, in order. *)
Lemma forecast_of_inv (data : json) (days : Z) (result : list App.Day.t) :
  forecast_of data days = Ok result →
  ∃ outs,
    Forall2 (λ d o, App.summarize d (samples_on data d) = Ok o)
            (selected data days) outs ∧
    result = omap id outs.
Proof.
  unfold App.forecast_of. intros H.
  apply bind_Ok in H as (l & Hl & H). apply bind_Ok in H as (items & Hi & H).
  apply bind_Ok in H as (daily & Hd & H).
  destruct (grouped _ _ _ _ _ Hl Hi Hd) as [Hdom Hlook].
  apply loop_spec in H as (outs & Hall & ->). exists outs. split; [|done].
  unfold Spec.selected. rewrite <- Hdom.
  eapply Forall2_impl; [done|]. intros d o. simpl. by rewrite Hlook.
Qed.

Lemma emitted_dates (P : string → option App.Day.t → Prop)
    (sel : list string) (outs : list (option App.Day.t)) :
  (∀ d s, P d (Some s) → App.Day.date s = d) →
  Forall2 P sel outs →
  (App.Day.date <$> omap id outs) `sublist_of` sel.
Proof.
  intros HP. induction 1 as [|d o sel outs Hdo _ IH]; [done|].
  destruct o as [s|]; simpl.
  - rewrite (HP d s Hdo). by constructor.
  - by constructor.
Qed.

Lemma emitted_from (data : json) (days : Z) (result : list App.Day.t)
    (s : App.Day.t) :
  forecast_of data days = Ok result → s ∈ result →
  App.Day.date s ∈ selected data days ∧
  App.summarize (App.Day.date s) (samples_on data (App.Day.date s)) = Ok (Some s).
Proof.
  intros (outs & Hall & ->)%forecast_of_inv Hs.
  apply list_elem_of_omap in Hs as (o & Ho & Heq). simpl in Heq. subst o.
  apply list_elem_of_lookup in Ho as [i Hi].
  destruct (Forall2_lookup_r _ _ _ _ _ Hall Hi) as (d & Hd & Hsum).
  destruct (summarize_Some _ _ _ Hsum) as [-> _].
  split; [|done]. by eapply list_elem_of_lookup_2.
Qed.

Lemma forecast_dates (data : json) (days : Z) (result : list App.Day.t) :
  forecast_of data days = Ok result →
  (App.Day.date <$> result) `sublist_of` selected data days.
Proof.
  intros (outs & Hall & ->)%forecast_of_inv.
  eapply emitted_dates; [|done]. intros d s Hs. simpl in Hs.
  by destruct (summarize_Some _ _ _ Hs).
Qed.

Lemma sublist_StronglySorted {A : Type} (R : relation A) (l1 l2 : list A) :
  l1 `sublist_of` l2 → StronglySorted R l2 → StronglySorted R l1.
Proof.
  induction 1 as [|x l1 l2 Hsub IH|x l1 l2 Hsub IH]; intros Hs; [done|..].
  - apply StronglySorted_cons in Hs as [Hx Hs].
    apply StronglySorted_cons. split; [|by apply IH].
    rewrite Forall_forall in Hx |- *. intros y Hy. apply Hx.
    by eapply elem_of_sublist.
  - apply StronglySorted_cons in Hs as [_ Hs]. by apply IH.
Qed.

Lemma selected_take (data : json) (days : Z) :
  1 ≤ days →
  selected data days =
  take (Z.to_nat days)
       (sorted (elements (distinct_dates fromtimestamp_date data))).
Proof.
  intros Hd. unfold Spec.selected, slice_to.
  by destruct (Z.leb_spec 0 days); [|lia].
Qed.

Lemma selected_sublist (data : json) (days : Z) :
  selected data days `sublist_of`
    sorted (elements (distinct_dates fromtimestamp_date data)).
Proof.
  unfold Spec.selected, slice_to. destruct (0 <=? days); apply sublist_take.
Qed.

Lemma sorted_dates (dates : gset string) :
  NoDup (sorted (elements dates)) ∧
  StronglySorted String.le (sorted (elements dates)) ∧
  length (sorted (elements dates)) = size dates.
Proof.
  unfold sorted. split; [|split].
  - rewrite merge_sort_Permutation. apply NoDup_elements.
  - apply StronglySorted_merge_sort; apply _.
  - by rewrite merge_sort_Permutation.
Qed.
End aggregation.

(** ** The forecast aggregator *)
Section forecast.
Import Py Http Spec.
Variable server : string → query → result response.
Variable fromtimestamp_date : Q → result string.
Variable API_KEY : option string.

(** A call of [get_forecast] whose request is answered with the body
    [data] returns what the aggregation makes of [data]. *)
Lemma get_forecast_of (city units : string) (days : Z) (log log' : list event)
    (data : json) (r : result (list App.Day.t)) :
  body_of server App.forecast_url (App.params API_KEY city units) = Ok data →
  App.get_forecast server fromtimestamp_date API_KEY city units days log
    = (r, log') →
  r = App.forecast_of fromtimestamp_date data days ∧
  log' = log ++ [Get App.forecast_url (App.params API_KEY city units)].
Proof.
  intros Hbody. rewrite get_forecast_body, Hbody. simpl. by intros [= <- <-].
Qed.

(** A date without any temperature reading is never emitted. *)
Lemma emitted_has_temperature (data : json) (days : Z)
    (result : list App.Day.t) (s : App.Day.t) :
  App.forecast_of fromtimestamp_date data days = Ok result → s ∈ result →
  omap temperature (samples_on fromtimestamp_date data (App.Day.date s)) ≠ [].
Proof.
  intros Hr Hs. destruct (emitted_from _ _ _ _ _ Hr Hs) as [_ Hsum].
  by destruct (summarize_Some _ _ _ Hsum) as (_ & ? & _).
Qed.
End forecast.

(** C1.  For a forecast response with N distinct sample dates (those of the
    samples that bear a timestamp) and a requested day count D >= 1,
    [get_forecast] returns at most min(N, D) daily summaries, each for a
    distinct date, in ascending order of the ISO date strings. *)
Theorem forecast_bounded_distinct_ascending
    (server : string → Http.query → Py.result Http.response)
    (fromtimestamp_date : Q → Py.result string) (API_KEY : option string)
    (city units : string) (days : Z) (log log' : list Http.event)
    (data : Py.json) (result : list App.Day.t) :
  Http.body_of server App.forecast_url (App.params API_KEY city units)
    = Py.Ok data →
  1 ≤ days →
  App.get_forecast server fromtimestamp_date API_KEY city units days log
    = (Py.Ok result, log') →
  (length result ≤
     Nat.min (size (Spec.distinct_dates fromtimestamp_date data)) (Z.to_nat days))%nat ∧
  NoDup (App.Day.date <$> result) ∧
  StronglySorted String.le (App.Day.date <$> result).
Proof.
  intros Hbody Hdays Hrun.
  destruct (get_forecast_of _ _ _ _ _ _ _ _ _ _ Hbody Hrun) as [Hres _].
  symmetry in Hres. apply forecast_dates in Hres.
  destruct (sorted_dates (Spec.distinct_dates fromtimestamp_date data))
    as (Hnd & Hss & Hlen).
  pose proof (selected_sublist fromtimestamp_date data days) as Hsel.
  assert (Hsub : (App.Day.date <$> result) `sublist_of`
            Py.sorted (elements (Spec.distinct_dates fromtimestamp_date data)))
    by (by etrans).
  split; [|split].
  - apply sublist_length in Hres. rewrite length_fmap in Hres.
    rewrite selected_take, length_take, Hlen in Hres by done. lia.
  - by eapply sublist_NoDup.
  - by eapply sublist_StronglySorted.
Qed.

Lemma forecast_bounded_distinct_ascending_witness :
  (length (Examples.emitted
             (App.get_forecast (Examples.reply Examples.three_days) Date.utc
                Examples.key "London" "metric" 2 [])) ≤
     Nat.min (size (Spec.distinct_dates Date.utc Examples.three_days))
             (Z.to_nat 2))%nat ∧
  NoDup (App.Day.date <$>
         Examples.emitted
           (App.get_forecast (Examples.reply Examples.three_days) Date.utc
              Examples.key "London" "metric" 2 [])) ∧
  StronglySorted String.le
    (App.Day.date <$>
     Examples.emitted
       (App.get_forecast (Examples.reply Examples.three_days) Date.utc
          Examples.key "London" "metric" 2 [])).
Proof.
  apply (forecast_bounded_distinct_ascending
           (Examples.reply Examples.three_days) Date.utc Examples.key
           "London" "metric" 2 []
           [Http.Get App.forecast_url (App.params Examples.key "London" "metric")]
           Examples.three_days).
  - reflexivity.
  - lia.
  - vm_compute; reflexivity.
Defined.

(** C3.  The description of an emitted summary is the most frequent
    description among the samples of its date that have one, the first-met
    one among equally frequent ones, and so is its icon.  In particular the
    descriptions "clear", "rain", "clear" give "clear", and "clear", "rain"
    give the first one, "clear". *)
Theorem forecast_most_frequent_description :
  (∀ (server : string → Http.query → Py.result Http.response)
     (fromtimestamp_date : Q → Py.result string) (API_KEY : option string)
     (city units : string) (days : Z) (log log' : list Http.event)
     (data : Py.json) (result : list App.Day.t) (s : App.Day.t),
     Http.body_of server App.forecast_url (App.params API_KEY city units)
       = Py.Ok data →
     App.get_forecast server fromtimestamp_date API_KEY city units days log
       = (Py.Ok result, log') →
     s ∈ result →
     Spec.representative
       (omap Spec.description_of
             (Spec.samples_on fromtimestamp_date data (App.Day.date s)))
       (Py.JStr "") (App.Day.description s) ∧
     Spec.representative
       (omap Spec.icon_of
             (Spec.samples_on fromtimestamp_date data (App.Day.date s)))
       Py.JNull (App.Day.icon s)) ∧
  Examples.descriptions
    (App.get_forecast (Examples.reply (Examples.described ["clear"; "rain"; "clear"]))
       Date.utc Examples.key "London" "metric" 5 []) = [Py.JStr "clear"] ∧
  Examples.descriptions
    (App.get_forecast (Examples.reply (Examples.described ["clear"; "rain"]))
       Date.utc Examples.key "London" "metric" 5 []) = [Py.JStr "clear"].
Proof.
  split; [|split; vm_compute; reflexivity].
  intros server date key city units days log log' data result s Hbody Hrun Hs.
  destruct (get_forecast_of _ _ _ _ _ _ _ _ _ _ Hbody Hrun) as [Hres _].
  symmetry in Hres. destruct (emitted_from _ _ _ _ _ Hres Hs) as [_ Hsum].
  by destruct (summarize_Some _ _ _ Hsum) as (_ & _ & _ & _ & _ & ? & ?).
Qed.

Lemma forecast_most_frequent_description_witness :
  Forall (λ s,
    Spec.representative
      (omap Spec.description_of
            (Spec.samples_on Date.utc Examples.three_days (App.Day.date s)))
      (Py.JStr "") (App.Day.description s) ∧
    Spec.representative
      (omap Spec.icon_of
            (Spec.samples_on Date.utc Examples.three_days (App.Day.date s)))
      Py.JNull (App.Day.icon s))
    (Examples.emitted
       (App.get_forecast (Examples.reply Examples.three_days) Date.utc
          Examples.key "London" "metric" 5 [])).
Proof.
  apply Forall_forall. intros s Hs.
  apply (proj1 forecast_most_frequent_description
           (Examples.reply Examples.three_days) Date.utc Examples.key
           "London" "metric" 5 []
           [Http.Get App.forecast_url (App.params Examples.key "London" "metric")]
           Examples.three_days
           (Examples.emitted
              (App.get_forecast (Examples.reply Examples.three_days) Date.utc
                 Examples.key "London" "metric" 5 [])) s).
  - reflexivity.
  - vm_compute; reflexivity.
  - exact Hs.
Defined.

(** The rainfall of the day whose samples carry the 3-hour rain values 0,
    2.5, none and 1.0 is 3.5.  These readings and their running totals are
    exact in binary floating point, so that the exact total is the one
    [sum] computes; on readings whose total rounds, the total of the
    program is a matter of floating-point addition, which the rationals of
    this development do not account for. *)
Lemma rainfall_of_example_day :
  Spec.rain_3h <$> Spec.samples_on Date.utc Examples.three_days "1970-01-01"
    = [0; 5 # 2; 0; 1]%Q ∧
  Examples.rainfalls
    (App.get_forecast (Examples.reply Examples.three_days)
       Date.utc Examples.key "London" "metric" 1 []) = [(7 # 2)%Q].
Proof. split; vm_compute; reflexivity. Qed.

Section order.
Import Py Spec.

End order.




(** ** Current conditions *)
Section current.
Import Py Http Spec.

(** What [get_weather] stores under [rain_1h]. *)
Lemma weather_of_rain (data : json) (w : App.Weather.t) :
  App.weather_of data = Ok w →
  (r ← get data "rain" JNull;
   if truthy r then r' ← get data "rain" (JObj []); get r' "1h" (JNum 0)
   else Ok (JNum 0)) = Ok (App.Weather.rain_1h w).
Proof.
  unfold App.weather_of. intros H.
  do 13 (apply bind_Ok in H as (? & _ & H)).
  apply bind_Ok in H as (rain & Hrain & H).
  do 3 (apply bind_Ok in H as (? & _ & H)).
  by inversion H.
Qed.

Lemma get_or_null (data v : json) (k : string) :
  get data k JNull = Ok v → v = or_null (field data k).
Proof. destruct data; try done. simpl. by intros [= <-]. Qed.

Lemma get_nested (data o v : json) (k k' : string) :
  get data k (JObj []) = Ok o → get o k' JNull = Ok v →
  v = or_null (nested data k k').
Proof.
  unfold nested. destruct data as [| | | | |kvs]; try done. simpl.
  destruct (dict_get kvs k) as [o'|]; simpl; intros [= <-].
  - apply get_or_null.
  - by intros [= <-].
Qed.

Lemma get_entry (data w0 v : json) (k : string) :
  (w ← get data "weather" (JArr [JObj []]); item0 w) = Ok w0 →
  get w0 k JNull = Ok v →
  v = or_null (w0 ← weather_entry data; field w0 k).
Proof.
  unfold weather_entry. destruct data as [| | | | |kvs]; try done. simpl.
  destruct (dict_get kvs "weather") as [w|]; simpl.
  - destruct w as [| | |[]|[|w0' ws]|]; try done; simpl; intros [= <-];
      try done. apply get_or_null.
  - intros [= <-]. by intros [= <-].
Qed.

(** Every field of the record is the value found in the body, and null
    when the field or the object around it is absent. *)
Lemma weather_of_fields (data : json) (w : App.Weather.t) :
  App.weather_of data = Ok w →
  App.Weather.city w = or_null (field data "name") ∧
  App.Weather.country w = or_null (nested data "sys" "country") ∧
  App.Weather.temp w = or_null (nested data "main" "temp") ∧
  App.Weather.feels_like w = or_null (nested data "main" "feels_like") ∧
  App.Weather.humidity w = or_null (nested data "main" "humidity") ∧
  App.Weather.pressure w = or_null (nested data "main" "pressure") ∧
  App.Weather.description w = or_null (description_of data) ∧
  App.Weather.icon w = or_null (icon_of data) ∧
  App.Weather.wind_speed w = or_null (nested data "wind" "speed") ∧
  App.Weather.clouds w = or_null (nested data "clouds" "all") ∧
  App.Weather.sunrise w = or_null (nested data "sys" "sunrise") ∧
  App.Weather.sunset w = or_null (nested data "sys" "sunset") ∧
  App.Weather.dt w = or_null (field data "dt").
Proof.
  unfold App.weather_of. intros H.
  apply bind_Ok in H as (sys & Hsys & H).
  apply bind_Ok in H as (main & Hmain & H).
  apply bind_Ok in H as (w0 & Hw0 & H).
  apply bind_Ok in H as (? & ->%get_or_null & H).
  apply bind_Ok in H as (? & ->%(get_nested _ _ _ _ _ Hsys) & H).
  apply bind_Ok in H as (? & ->%(get_nested _ _ _ _ _ Hmain) & H).
  apply bind_Ok in H as (? & ->%(get_nested _ _ _ _ _ Hmain) & H).
  apply bind_Ok in H as (? & ->%(get_nested _ _ _ _ _ Hmain) & H).
  apply bind_Ok in H as (? & ->%(get_nested _ _ _ _ _ Hmain) & H).
  apply bind_Ok in H as (? & ->%(get_entry _ _ _ _ Hw0) & H).
  apply bind_Ok in H as (? & ->%(get_entry _ _ _ _ Hw0) & H).
  apply bind_Ok in H as (? & Hwind & H).
  apply bind_Ok in Hwind as (wind & Hwind & ->%(get_nested _ _ _ _ _ Hwind)).
  apply bind_Ok in H as (? & Hcl & H).
  apply bind_Ok in Hcl as (cl & Hcl & ->%(get_nested _ _ _ _ _ Hcl)).
  apply bind_Ok in H as (? & _ & H).
  apply bind_Ok in H as (? & ->%(get_nested _ _ _ _ _ Hsys) & H).
  apply bind_Ok in H as (? & ->%(get_nested _ _ _ _ _ Hsys) & H).
  apply bind_Ok in H as (? & ->%get_or_null & H).
  by inversion H.
Qed.

(** A body whose nested values have their shape is projected without an
    exception. *)
Lemma weather_of_total (data : json) :
  Shape.current_ok data = true → ∃ w, App.weather_of data = Ok w.
Proof.
  destruct data as [| | | | |kvs]; try done.
  unfold Shape.current_ok, Shape.object_or_absent, App.weather_of. simpl.
  rewrite !andb_true_iff. intros [[[[[Hsys Hmain] Hw] Hwind] Hcl] Hrain].
  destruct (dict_get kvs "sys") as [[| | | | |?]|]; try done;
  destruct (dict_get kvs "main") as [[| | | | |?]|]; try done;
  destruct (dict_get kvs "weather") as [[| | | |[|[| | | | |?] ?]|]|];
    try done;
  destruct (dict_get kvs "wind") as [[| | | | |?]|]; try done;
  destruct (dict_get kvs "clouds") as [[| | | | |?]|]; try done;
  destruct (dict_get kvs "rain") as [r|]; simpl; try (by eexists);
  destruct (truthy r) eqn:Er; simpl; try (by eexists);
  (destruct r; try done; simpl; by eexists).
Qed.
End current.

(** C7.  For a current-conditions response whose body lacks the [rain]
    object, or whose [rain] object lacks the [1h] field, the record
    [get_weather] returns has [rain_1h] equal to 0. *)
Theorem current_rain_defaults_to_zero
    (server : string → Http.query → Py.result Http.response)
    (API_KEY : option string) (city units : string)
    (log log' : list Http.event) (data : Py.json) (w : App.Weather.t) :
  Http.body_of server App.weather_url (App.params API_KEY city units)
    = Py.Ok data →
  Spec.lacks_rain_1h data →
  App.get_weather server API_KEY city units log = (Py.Ok w, log') →
  App.Weather.rain_1h w = Py.JNum 0.
Proof.
  intros Hbody Hrain Hrun. rewrite get_weather_body, Hbody in Hrun.
  simpl in Hrun. injection Hrun as Hw _. apply weather_of_rain in Hw.
  destruct data as [| | | | |kvs]; try done.
  unfold Spec.lacks_rain_1h, Spec.field in Hrain. simpl in Hw.
  destruct Hrain as [Hr|(r & Hr & H1h)]; rewrite Hr in Hw; simpl in Hw.
  - by inversion Hw.
  - destruct r as [|[k v] r]; simpl in Hw, H1h; [by inversion Hw|].
    rewrite H1h in Hw. by inversion Hw.
Qed.

Lemma current_rain_defaults_to_zero_witness :
  ∃ w, App.get_weather (Examples.reply Examples.london_rain_3h) Examples.key
         "London" "metric" [] =
       (Py.Ok w,
        [Http.Get App.weather_url (App.params Examples.key "London" "metric")]) ∧
       App.Weather.rain_1h w = Py.JNum 0.
Proof.
  eexists. split; [vm_compute; reflexivity|].
  eapply (current_rain_defaults_to_zero
            (Examples.reply Examples.london_rain_3h) Examples.key
            "London" "metric" []
            [Http.Get App.weather_url (App.params Examples.key "London" "metric")]
            Examples.london_rain_3h).
  - reflexivity.
  - right. eexists. split; reflexivity.
  - vm_compute; reflexivity.
Defined.

(** C8.  A forecast request that succeeds with an empty sample list, or with
    a body without the sample list, returns the empty sequence. *)
Theorem forecast_empty_samples
    (server : string → Http.query → Py.result Http.response)
    (fromtimestamp_date : Q → Py.result string) (API_KEY : option string)
    (city units : string) (days : Z) (log : list Http.event) (data : Py.json) :
  Http.body_of server App.forecast_url (App.params API_KEY city units)
    = Py.Ok data →
  Spec.no_samples data →
  App.get_forecast server fromtimestamp_date API_KEY city units days log =
  (Py.Ok [], log ++ [Http.Get App.forecast_url (App.params API_KEY city units)]).
Proof.
  intros Hbody (kvs & -> & Hlist). rewrite get_forecast_body, Hbody. simpl.
  f_equal. unfold App.forecast_of. simpl.
  assert (Py.slice_to (Py.sorted (elements (dom (∅ : gmap string (list Py.json)))))
            days = []) as Hsel.
  { rewrite dom_empty_L, elements_empty. unfold Py.slice_to.
    change (Py.sorted []) with (@nil string).
    destruct (0 <=? days); apply take_nil. }
  destruct Hlist as [-> | ->]; simpl; by rewrite Hsel.
Qed.

Lemma forecast_empty_samples_witness :
  App.get_forecast (Examples.reply (Py.JObj [("list", Py.JArr [])])) Date.utc
    Examples.key "London" "metric" 5 [] =
  (Py.Ok [],
   [] ++ [Http.Get App.forecast_url (App.params Examples.key "London" "metric")]).
Proof.
  apply (forecast_empty_samples
           (Examples.reply (Py.JObj [("list", Py.JArr [])])) Date.utc
           Examples.key "London" "metric" 5 [] (Py.JObj [("list", Py.JArr [])])).
  - reflexivity.
  - eexists. split; [reflexivity|]. right. reflexivity.
Defined.

(** ** The credential *)
Section credential.
Import Py Http Spec.

(** The fetchers of [app.py] have no credential check of their own. *)
Lemma app_get_weather_forwards :
  credential_only_forwarded App.weather_url App.get_weather.
Proof.
  intros server key key' city units log Hsame.
  rewrite !get_weather_body. unfold body_of. simpl. by rewrite Hsame.
Qed.

Lemma app_get_forecast_forwards (fromtimestamp_date : Q → result string)
    (days : Z) :
  credential_only_forwarded App.forecast_url
    (λ server key city units,
       App.get_forecast server fromtimestamp_date key city units days).
Proof.
  intros server key key' city units log Hsame.
  rewrite !get_forecast_body. unfold body_of. simpl. by rewrite Hsame.
Qed.
End credential.

(** C9, as the claim has it, fails on [fetch_weather.py]: its [get_weather]
    does turn a missing credential into an error of each call. *)
Lemma credential_per_request_in_fetch_weather :
  ¬ Spec.never_per_request_error FetchWeather.get_weather.
Proof.
  intros H.
  apply (H (Examples.reply Examples.london) None "London" "metric");
    [reflexivity|].
  exists (Py.RuntimeError "Set OPENWEATHER_API_KEY in .env"). by intros log.
Qed.

(** C9, amended.  In [app.py] a missing credential is detected when the
    script starts and is fatal: the script reports it and stops, and no
    request is sent, so that its fetchers are not called without a
    credential.  [get_weather] and [get_forecast] of [app.py] have no check
    of their own: whatever the credential, a call sends the request and
    returns or raises what the answer to it gives, and nothing else; the
    credential reaches the outcome only through the answer of the server.
    [get_weather] of [fetch_weather.py] checks the credential at each call
    and raises [RuntimeError] before it sends anything. *)
Theorem credential_checked_at_startup
    (server : string → Http.query → Py.result Http.response)
    (fromtimestamp_date : Q → Py.result string) (API_KEY : option string)
    (city units unit_choice : string) (days : Z) (log : list Http.event) :
  App.falsy_key API_KEY = true →
  App.script server fromtimestamp_date API_KEY city unit_choice log =
    (Py.Ok tt,
     log ++ [Http.StError
               "Missing OPENWEATHER_API_KEY in .env file (add it to your .env)"
               None;
             Http.StStop]) ∧
  App.get_weather server API_KEY city units log =
    (Http.body_of server App.weather_url (App.params API_KEY city units)
       ≫= App.weather_of,
     log ++ [Http.Get App.weather_url (App.params API_KEY city units)]) ∧
  App.get_forecast server fromtimestamp_date API_KEY city units days log =
    (Http.body_of server App.forecast_url (App.params API_KEY city units)
       ≫= (λ data, App.forecast_of fromtimestamp_date data days),
     log ++ [Http.Get App.forecast_url (App.params API_KEY city units)]) ∧
  Spec.credential_only_forwarded App.weather_url App.get_weather ∧
  Spec.credential_only_forwarded App.forecast_url
    (λ server key city units,
       App.get_forecast server fromtimestamp_date key city units days) ∧
  ¬ Spec.credential_only_forwarded FetchWeather.weather_url
      FetchWeather.get_weather ∧
  FetchWeather.get_weather server API_KEY city units log =
    (Py.Raise (Py.RuntimeError "Set OPENWEATHER_API_KEY in .env"), log).
Proof.
  intros Hkey. split; [|split; [|split; [|split; [|split; [|split]]]]].
  - unfold App.script. rewrite Hkey.
    unfold mbind, Http.io_bind, Http.emit. by rewrite <- app_assoc.
  - apply get_weather_body.
  - apply get_forecast_body.
  - apply app_get_weather_forwards.
  - apply app_get_forecast_forwards.
  - intros H.
    specialize (H (Examples.reply Examples.london) None Examples.key
                  "London" "metric" [] eq_refl).
    vm_compute in H. discriminate H.
  - unfold FetchWeather.get_weather. by rewrite Hkey.
Qed.

Lemma credential_checked_at_startup_witness :
  App.script (Examples.reply Examples.london) Date.utc None "London"
    "Metric (°C)" [] =
    (Py.Ok tt,
     [] ++ [Http.StError
              "Missing OPENWEATHER_API_KEY in .env file (add it to your .env)"
              None;
            Http.StStop]) ∧
  App.get_weather (Examples.reply Examples.london) None "London" "metric" [] =
    (Http.body_of (Examples.reply Examples.london) App.weather_url
       (App.params None "London" "metric") ≫= App.weather_of,
     [] ++ [Http.Get App.weather_url (App.params None "London" "metric")]) ∧
  App.get_forecast (Examples.reply Examples.london) Date.utc None "London"
    "metric" 5 [] =
    (Http.body_of (Examples.reply Examples.london) App.forecast_url
       (App.params None "London" "metric")
       ≫= (λ data, App.forecast_of Date.utc data 5),
     [] ++ [Http.Get App.forecast_url (App.params None "London" "metric")]) ∧
  Spec.credential_only_forwarded App.weather_url App.get_weather ∧
  Spec.credential_only_forwarded App.forecast_url
    (λ server key city units,
       App.get_forecast server Date.utc key city units 5) ∧
  ¬ Spec.credential_only_forwarded FetchWeather.weather_url
      FetchWeather.get_weather ∧
  FetchWeather.get_weather (Examples.reply Examples.london) None "London"
    "metric" [] =
    (Py.Raise (Py.RuntimeError "Set OPENWEATHER_API_KEY in .env"), []).
Proof.
  apply (credential_checked_at_startup (Examples.reply Examples.london)
           Date.utc None "London" "metric" "Metric (°C)" 5 []).
  reflexivity.
Defined.

(** C2.  The projection of [app.py] raises [IndexError] on a body whose
    [weather] list is empty, and the one of [fetch_weather.py] raises
    [KeyError] on a body whose [main] has no [temp], where the one of
    [app.py] returns a record with a null temperature. *)
Theorem current_projection_raises :
  App.get_weather (Examples.reply Examples.empty_weather) Examples.key
    "London" "metric" [] =
    (Py.Raise Py.IndexError,
     [Http.Get App.weather_url (App.params Examples.key "London" "metric")]) ∧
  FetchWeather.get_weather (Examples.reply Examples.no_temp) Examples.key
    "London" "metric" [] =
    (Py.Raise (Py.KeyError "temp"),
     [Http.Get FetchWeather.weather_url
        (App.params Examples.key "London" "metric")]) ∧
  ∃ w, App.get_weather (Examples.reply Examples.no_temp) Examples.key
         "London" "metric" [] =
       (Py.Ok w,
        [Http.Get App.weather_url (App.params Examples.key "London" "metric")]) ∧
       App.Weather.temp w = Py.JNull.
Proof.
  split; [vm_compute; reflexivity|]. split; [vm_compute; reflexivity|].
  eexists. split; [vm_compute; reflexivity|]. reflexivity.
Qed.

(** C5.  On a response whose only sample has a [main] object without
    [temp], the date is selected and has no temperature reading, and
    [get_forecast] raises [KeyError] instead of dropping it. *)
Theorem forecast_raises_on_main_without_temp :
  Spec.selected Date.utc Examples.main_without_temp 5 = ["1970-01-01"] ∧
  omap Spec.temperature
    (Spec.samples_on Date.utc Examples.main_without_temp "1970-01-01") = [] ∧
  App.get_forecast (Examples.reply Examples.main_without_temp) Date.utc
    Examples.key "London" "metric" 5 [] =
    (Py.Raise (Py.KeyError "temp"),
     [Http.Get App.forecast_url (App.params Examples.key "London" "metric")]).
Proof. repeat split; vm_compute; reflexivity. Qed.

(** ** Well-formed bodies are aggregated without an exception *)
Section totality.
Import Py Http Spec Shape.
Variable fromtimestamp_date : Q → result string.

Local Abbreviation sample_ok := (sample_ok fromtimestamp_date).

Lemma comprehension_total {A B : Type} (f : A → result B)
    (c : A → result bool) (l : list A) :
  Forall (λ x, ∃ b, c x = Ok b ∧ (b = true → ∃ y, f x = Ok y)) l →
  ∃ ys, comprehension f c l = Ok ys.
Proof.
  induction 1 as [|x l (b & Hc & Hf) _ [ys IH]]; [by exists []|].
  simpl. rewrite Hc. simpl. destruct b.
  - destruct (Hf eq_refl) as [y ->]. simpl. rewrite IH. simpl. eauto.
  - eauto.
Qed.

Lemma mapM_total {A B : Type} (f : A → result B) (P : B → Prop) (l : list A) :
  Forall (λ x, ∃ y, f x = Ok y ∧ P y) l →
  ∃ ys, mapM f l = Ok ys ∧ Forall P ys.
Proof.
  induction 1 as [|x l (y & Hy & HP) _ (ys & IH & HPs)].
  - exists []. by split; [|constructor].
  - simpl. rewrite Hy. simpl. rewrite IH. simpl. exists (y :: ys).
    by split; [|constructor].
Qed.

Lemma is_number_numeric (t : json) : is_number t = true → numeric t.
Proof. unfold is_number, numeric. by destruct (as_num t). Qed.

Lemma sample_ok_inv (x : json) :
  sample_ok x = true →
  ∃ kvs, x = JObj kvs ∧ dt_ok fromtimestamp_date x = true ∧
         main_ok x = true ∧ rain_ok x = true ∧ weather_ok x = true.
Proof.
  destruct x as [| | | | |kvs]; try done. unfold Shape.sample_ok.
  rewrite !andb_true_iff. intros [[[? ?] ?] ?]. eauto 10.
Qed.

Lemma main_ok_temps (x : json) :
  (∃ kvs, x = JObj kvs) → main_ok x = true →
  ∃ b, (m ← get x "main" JNull; Ok (truthy m)) = Ok b ∧
       (b = true → ∃ y, (m ← item x "main"; item m "temp") = Ok y).
Proof.
  intros [kvs ->]. unfold main_ok. simpl.
  destruct (dict_get kvs "main") as [m|]; simpl; [|by exists false].
  intros H. exists (truthy m). split; [done|]. intros Et.
  rewrite Et in H. simpl in H.
  destruct m as [| | | | |mk]; try done. simpl in *.
  destruct (dict_get mk "temp"); [eauto|done].
Qed.

Lemma main_ok_numeric (x t : json) :
  main_ok x = true → temperature x = Some t → numeric t.
Proof.
  unfold main_ok, temperature. destruct (field x "main") as [m|]; [|done].
  simpl. intros H Ht. rewrite Ht in H. destruct (truthy m) eqn:Em.
  - by apply is_number_numeric.
  - by rewrite falsy_field in Ht.
Qed.

Lemma rain_ok_reading (x : json) :
  (∃ kvs, x = JObj kvs) → rain_ok x = true →
  ∃ v, (r ← get x "rain" (JObj []); get r "3h" (JNum 0)) = Ok v ∧ numeric v.
Proof.
  intros [kvs ->]. unfold rain_ok. simpl.
  assert (numeric (JNum 0)) as H0 by (by eexists).
  destruct (dict_get kvs "rain") as [r|]; simpl; [|by eauto].
  destruct r as [| | | | |rk]; try done. simpl.
  destruct (dict_get rk "3h") as [v|]; simpl.
  - intros ?%is_number_numeric. eauto.
  - eauto.
Qed.

Lemma weather_ok_entries (x : json) (k : string) :
  (∃ kvs, x = JObj kvs) → weather_ok x = true →
  k = "description" ∨ k = "icon" →
  ∃ b, (w ← get x "weather" JNull; Ok (truthy w)) = Ok b ∧
       (b = true →
        ∃ y, (w ← item x "weather"; w0 ← item0 w; item w0 k) = Ok y).
Proof.
  intros [kvs ->]. unfold weather_ok. simpl.
  destruct (dict_get kvs "weather") as [w|]; simpl; [|by exists false].
  intros H Hk. exists (truthy w). split; [done|]. intros Et.
  rewrite Et in H. simpl in H.
  destruct w as [| | | |[|[| | | | |e] ws]|]; try done. simpl.
  destruct (dict_get e "description") as [dsc|] eqn:Ed; [|done].
  destruct (dict_get e "icon") as [ic|] eqn:Ei; [|done].
  destruct Hk as [-> | ->]; rewrite ?Ed, ?Ei; eauto.
Qed.

Lemma weather_ok_hashable (x v : json) :
  weather_ok x = true →
  description_of x = Some v ∨ icon_of x = Some v → hashable v = true.
Proof.
  unfold weather_ok, description_of, icon_of, weather_entry.
  destruct (field x "weather") as [w|]; simpl; [|by intros _ [|]].
  destruct w as [| | | |[|w0 ws]|]; simpl; try (by intros _ [|]).
  destruct w0 as [| | | | |e]; simpl; try (by intros _ [|]).
  destruct (dict_get e "description") as [dsc|]; [|done].
  destruct (dict_get e "icon") as [ic|]; [|done].
  intros [? ?]%andb_true_iff [[= <-]|[= <-]]; done.
Qed.

Lemma extremum_total (step : json → json → result json) (l : list json)
    (best : json) :
  (∀ a b, numeric a → numeric b → ∃ r, step a b = Ok r ∧ numeric r) →
  numeric best → Forall numeric l → ∃ r, foldM step best l = Ok r.
Proof.
  intros Hstep. revert best. induction l as [|y l IH]; intros best Hb Hl.
  - by exists best.
  - apply Forall_cons in Hl as [Hy Hl]. simpl.
    destruct (Hstep best y Hb Hy) as (r & -> & Hr). simpl. by apply IH.
Qed.

Lemma min_total (l : list json) :
  l ≠ [] → Forall numeric l → ∃ r, min l = Ok r.
Proof.
  destruct l as [|x l]; [done|]. intros _ [Hx Hl]%Forall_cons. simpl.
  apply extremum_total; [|done..]. intros a b Ha Hb.
  rewrite lt_numeric by done. simpl. destruct (Qlt_bool _ _); eauto.
Qed.

Lemma max_total (l : list json) :
  l ≠ [] → Forall numeric l → ∃ r, max l = Ok r.
Proof.
  destruct l as [|x l]; [done|]. intros _ [Hx Hl]%Forall_cons. simpl.
  apply extremum_total; [|done..]. intros a b Ha Hb.
  rewrite lt_numeric by done. simpl. destruct (Qlt_bool _ _); eauto.
Qed.

Lemma sum_total (l : list json) (acc : Q) :
  Forall numeric l → ∃ q, foldM add acc l = Ok q.
Proof.
  revert acc. induction l as [|x l IH]; intros acc Hl; [by eexists|].
  apply Forall_cons in Hl as [[q Hq] Hl].
  change (foldM add acc (x :: l)) with (add acc x ≫= λ a, foldM add a l).
  assert (add acc x = Ok (Qred (acc + q))) as ->
    by (unfold add; by rewrite Hq).
  simpl. by apply IH.
Qed.

Lemma incr_nonempty (c : list (json * nat)) (x : json) : incr c x ≠ [].
Proof. destruct c as [|[k n] c]; simpl; [done|]. by destruct (key_eqb k x). Qed.

Lemma most_common_total (l : list json) :
  l ≠ [] → Forall (λ x, hashable x = true) l → ∃ v, App.most_common l = Ok v.
Proof.
  intros Hne Hh. unfold App.most_common, Counter.
  assert (∀ c, (c ≠ [] ∨ l ≠ []) →
            ∃ c', foldM (λ c x, if hashable x then Ok (incr c x)
                                else Raise TypeError) c l = Ok c' ∧ c' ≠ [])
    as Hfold.
  { clear Hne. induction Hh as [|x l Hx _ IH]; intros c Hc.
    - exists c. split; [done|]. by destruct Hc.
    - simpl. rewrite Hx. simpl. apply IH. left. apply incr_nonempty. }
  destruct (Hfold [] (or_intror Hne)) as (c & -> & Hc). simpl.
  destruct c as [|kn c]; [done|]. simpl. eauto.
Qed.

Lemma summarize_total (d : string) (items : list json) :
  Forall (λ x, sample_ok x = true) items →
  ∃ o, App.summarize d items = Ok o.
Proof.
  intros Hok.
  assert (Forall (λ x, ∃ kvs, x = JObj kvs ∧
                    dt_ok fromtimestamp_date x = true ∧ main_ok x = true ∧
                    rain_ok x = true ∧ weather_ok x = true) items) as Hinv.
  { eapply Forall_impl; [done|]. apply sample_ok_inv. }
  clear Hok. unfold App.summarize.
  destruct (comprehension_total
              (λ x, m ← item x "main"; item m "temp")
              (λ x, m ← get x "main" JNull; Ok (truthy m)) items)
    as [temps Htemps].
  { eapply Forall_impl; [done|]. intros x (kvs & -> & _ & Hm & _).
    apply main_ok_temps; eauto. }
  rewrite Htemps. simpl. apply temps_spec in Htemps as ->.
  destruct (mapM_total
              (λ x, r ← get x "rain" (JObj []); get r "3h" (JNum 0))
              numeric items) as (rains & -> & Hrains).
  { eapply Forall_impl; [done|]. intros x (kvs & -> & _ & _ & Hr & _).
    apply rain_ok_reading; eauto. }
  simpl.
  destruct (comprehension_total
              (λ x, w ← item x "weather"; w0 ← item0 w; item w0 "description")
              (λ x, w ← get x "weather" JNull; Ok (truthy w)) items)
    as [descs Hdescs].
  { eapply Forall_impl; [done|]. intros x (kvs & -> & _ & _ & _ & Hw).
    apply weather_ok_entries; eauto. }
  rewrite Hdescs. simpl. apply entries_spec in Hdescs as ->.
  destruct (comprehension_total
              (λ x, w ← item x "weather"; w0 ← item0 w; item w0 "icon")
              (λ x, w ← get x "weather" JNull; Ok (truthy w)) items)
    as [icons Hicons].
  { eapply Forall_impl; [done|]. intros x (kvs & -> & _ & _ & _ & Hw).
    apply weather_ok_entries; eauto. }
  rewrite Hicons. simpl. apply entries_spec in Hicons as ->.
  fold description_of icon_of.
  assert (Forall numeric (omap temperature items)) as Hnum.
  { apply Forall_forall. intros t (x & Hx & Ht)%list_elem_of_omap.
    rewrite Forall_forall in Hinv.
    destruct (Hinv x Hx) as (_ & _ & _ & Hm & _). by eapply main_ok_numeric. }
  assert (Forall (λ v, hashable v = true) (omap description_of items)) as Hd.
  { apply Forall_forall. intros v (x & Hx & Hv)%list_elem_of_omap.
    rewrite Forall_forall in Hinv.
    destruct (Hinv x Hx) as (_ & _ & _ & _ & _ & Hw).
    eapply weather_ok_hashable; eauto. }
  assert (Forall (λ v, hashable v = true) (omap icon_of items)) as Hi.
  { apply Forall_forall. intros v (x & Hx & Hv)%list_elem_of_omap.
    rewrite Forall_forall in Hinv.
    destruct (Hinv x Hx) as (_ & _ & _ & _ & _ & Hw).
    eapply weather_ok_hashable; eauto. }
  destruct (omap temperature items) as [|t ts] eqn:Et; [by eexists|].
  destruct (min_total (t :: ts)) as [lo ->]; [done..|].
  destruct (max_total (t :: ts)) as [hi ->]; [done..|].
  destruct (sum_total rains 0%Q Hrains) as [q Hq].
  unfold sum. rewrite Hq. simpl.
  assert (∃ v, match omap description_of items with
               | [] => Ok (JStr "")
               | _ :: _ => App.most_common (omap description_of items)
               end = Ok v) as [dsc ->].
  { destruct (omap description_of items) eqn:E; [by eexists|].
    by apply most_common_total. }
  assert (∃ v, match omap icon_of items with
               | [] => Ok JNull
               | _ :: _ => App.most_common (omap icon_of items)
               end = Ok v) as [ic ->].
  { destruct (omap icon_of items) eqn:E; [by eexists|].
    by apply most_common_total. }
  simpl. by eexists.
Qed.

Lemma group_total (items : list json) (daily : gmap string (list json)) :
  Forall (λ x, sample_ok x = true) items →
  ∃ daily', foldM (App.group fromtimestamp_date) daily items = Ok daily'.
Proof.
  intros Hok. revert daily. induction Hok as [|x items Hx _ IH]; intros daily.
  - by eexists.
  - assert (∃ daily1, App.group fromtimestamp_date daily x = Ok daily1)
      as [daily1 H1].
    { apply sample_ok_inv in Hx as (kvs & -> & Hdt & _).
      unfold dt_ok, field in Hdt. unfold App.group, get.
      destruct (dict_get kvs "dt") as [ts|];
        cbn [from_option id mbind result_bind]; [|by eexists].
      destruct (App.date_of fromtimestamp_date ts) as [d|e] eqn:E.
      - destruct ts; by eexists.
      - destruct ts; try done; by eexists. }
    cbn [foldM]. rewrite H1. simpl. apply IH.
Qed.

Lemma loop_total (daily : gmap string (list json)) (sel : list string)
    (acc : list App.Day.t) :
  (∀ d, Forall (λ x, sample_ok x = true) (daily !!! d)) →
  ∃ result,
    foldM (λ result d,
             s ← App.summarize d (daily !!! d);
             Ok (match s with Some s => result ++ [s] | None => result end))
          acc sel = Ok result.
Proof.
  intros Hok. revert acc. induction sel as [|d sel IH]; intros acc.
  - by eexists.
  - simpl. destruct (summarize_total d (daily !!! d) (Hok d)) as [o ->].
    simpl. apply IH.
Qed.

Lemma well_formed_samples (data : json) :
  well_formed fromtimestamp_date data = true →
  get data "list" (JArr []) = Ok (JArr (samples data)) ∧
  Forall (λ x, sample_ok x = true) (samples data).
Proof.
  destruct data as [| | | | |kvs]; try done. unfold samples. simpl.
  destruct (dict_get kvs "list") as [l|]; simpl; [|by split; [|constructor]].
  destruct l as [| | | |xs|]; try done. intros H. split; [done|].
  apply Forall_forall. intros x Hx. rewrite forallb_forall in H.
  by apply H, list_elem_of_In.
Qed.

(** A well-formed body is aggregated without an exception, [sum] adding
    exactly; [Extra.rain_in_range] bounds the readings for which Python's
    [sum] cannot raise either. *)
Lemma forecast_total (data : json) (days : Z) :
  well_formed fromtimestamp_date data = true →
  ∃ result, App.forecast_of fromtimestamp_date data days = Ok result.
Proof.
  intros [Hget Hok]%well_formed_samples. unfold App.forecast_of.
  rewrite Hget. simpl.
  destruct (group_total (samples data) ∅ Hok) as [daily Hd].
  rewrite Hd. simpl. apply loop_total. intros d.
  destruct (grouped fromtimestamp_date data _ _ daily Hget eq_refl Hd)
    as [_ ->].
  unfold samples_on. apply Forall_forall. intros x [_ Hx]%list_elem_of_filter.
  rewrite Forall_forall in Hok. by apply Hok.
Qed.
End totality.

Section without_weather.
Import Py Spec.



End without_weather.




(** ** More on the current conditions *)
Section current_more.
Import Py Http Spec.

Lemma rain_1h_value (data v : json) :
  (r ← get data "rain" JNull;
   if truthy r then r' ← get data "rain" (JObj []); get r' "1h" (JNum 0)
   else Ok (JNum 0)) = Ok v →
  v = Extra.rain_1h_of data.
Proof.
  unfold Extra.rain_1h_of. destruct data as [| | | | |kvs]; try done. simpl.
  destruct (dict_get kvs "rain") as [r|]; simpl; [|by intros [= <-]].
  destruct (truthy r); simpl; [|by intros [= <-]].
  destruct r; try done. simpl. by intros [= <-].
Qed.

Lemma nested_object (data o v : json) (k k' : string) :
  get data k (JObj []) = Ok o → get o k' JNull = Ok v →
  Shape.object_or_absent data k = true.
Proof.
  unfold Shape.object_or_absent. destruct data as [| | | | |kvs]; try done.
  simpl. destruct (dict_get kvs k) as [o'|]; simpl; [|done].
  intros [= <-]. by destruct o'.
Qed.

Lemma weather_of_shaped (data : json) (w : App.Weather.t) :
  App.weather_of data = Ok w → Shape.current_ok data = true.
Proof.
  unfold App.weather_of. intros H.
  apply bind_Ok in H as (sys & Hsys & H).
  apply bind_Ok in H as (main & Hmain & H).
  apply bind_Ok in H as (w0 & Hw0 & H).
  apply bind_Ok in H as (? & _ & H).
  apply bind_Ok in H as (? & Hcountry & H).
  apply bind_Ok in H as (? & Htemp & H).
  do 3 (apply bind_Ok in H as (? & _ & H)).
  apply bind_Ok in H as (? & Hdesc & H).
  apply bind_Ok in H as (? & _ & H).
  apply bind_Ok in H as (? & Hwind & H).
  apply bind_Ok in Hwind as (wind & Hwind & Hspeed).
  apply bind_Ok in H as (? & Hcl & H).
  apply bind_Ok in Hcl as (cl & Hcl & Hall).
  apply bind_Ok in H as (? & Hrain & _).
  pose proof (nested_object _ _ _ _ _ Hsys Hcountry) as Es.
  pose proof (nested_object _ _ _ _ _ Hmain Htemp) as Em.
  pose proof (nested_object _ _ _ _ _ Hwind Hspeed) as Ew.
  pose proof (nested_object _ _ _ _ _ Hcl Hall) as Ec.
  destruct data as [| | | | |kvs]; try done.
  unfold Shape.current_ok. rewrite Es, Em, Ew, Ec. simpl in *.
  rewrite !andb_true_r. apply andb_true_iff. split.
  - destruct (dict_get kvs "weather") as [wl|]; [|done]. simpl in Hw0.
    destruct wl as [| | |[]|[|w0' ws]|]; try done; simpl in Hw0;
      injection Hw0 as <-; simpl in Hdesc; try done. by destruct w0'.
  - destruct (dict_get kvs "rain") as [r|]; [|done]. simpl in Hrain.
    destruct (truthy r) eqn:Er; [|by destruct r]. by destruct r.
Qed.
End current_more.

(** X1.  Every field of the record [get_weather] of [app.py] returns is the
    value the body has at its place, or null when the value or the object
    around it is absent; [rain_1h] is the [1h] of a non-empty [rain] object,
    or 0. *)
Theorem current_fields_from_body
    (server : string → Http.query → Py.result Http.response)
    (API_KEY : option string) (city units : string)
    (log log' : list Http.event) (data : Py.json) (w : App.Weather.t) :
  Http.body_of server App.weather_url (App.params API_KEY city units)
    = Py.Ok data →
  App.get_weather server API_KEY city units log = (Py.Ok w, log') →
  App.Weather.city w = Spec.or_null (Spec.field data "name") ∧
  App.Weather.country w = Spec.or_null (Spec.nested data "sys" "country") ∧
  App.Weather.temp w = Spec.or_null (Spec.nested data "main" "temp") ∧
  App.Weather.feels_like w = Spec.or_null (Spec.nested data "main" "feels_like") ∧
  App.Weather.humidity w = Spec.or_null (Spec.nested data "main" "humidity") ∧
  App.Weather.pressure w = Spec.or_null (Spec.nested data "main" "pressure") ∧
  App.Weather.description w = Spec.or_null (Spec.description_of data) ∧
  App.Weather.icon w = Spec.or_null (Spec.icon_of data) ∧
  App.Weather.wind_speed w = Spec.or_null (Spec.nested data "wind" "speed") ∧
  App.Weather.clouds w = Spec.or_null (Spec.nested data "clouds" "all") ∧
  App.Weather.rain_1h w = Extra.rain_1h_of data ∧
  App.Weather.sunrise w = Spec.or_null (Spec.nested data "sys" "sunrise") ∧
  App.Weather.sunset w = Spec.or_null (Spec.nested data "sys" "sunset") ∧
  App.Weather.dt w = Spec.or_null (Spec.field data "dt").
Proof.
  intros Hbody Hrun. rewrite get_weather_body, Hbody in Hrun.
  simpl in Hrun. injection Hrun as Hw _.
  pose proof (weather_of_rain _ _ Hw) as Hrain%rain_1h_value.
  destruct (weather_of_fields _ _ Hw)
    as (? & ? & ? & ? & ? & ? & ? & ? & ? & ? & ? & ? & ?).
  repeat split; done.
Qed.

Lemma current_fields_from_body_witness :
  ∃ w, App.get_weather (Examples.reply Examples.london) Examples.key
         "London" "metric" [] =
       (Py.Ok w,
        [Http.Get App.weather_url (App.params Examples.key "London" "metric")]) ∧
       App.Weather.city w = Py.JStr "London" ∧
       App.Weather.country w = Py.JNull ∧
       App.Weather.temp w = Py.JNum (25 # 2) ∧
       App.Weather.rain_1h w = Py.JNum 0 ∧
       App.Weather.sunrise w = Py.JNull.
Proof.
  eexists. split; [vm_compute; reflexivity|].
  edestruct (current_fields_from_body
               (Examples.reply Examples.london) Examples.key "London" "metric" []
               [Http.Get App.weather_url (App.params Examples.key "London" "metric")]
               Examples.london)
    as (Hc & Hco & Ht & _ & _ & _ & _ & _ & _ & _ & Hr & Hs & _).
  - reflexivity.
  - vm_compute; reflexivity.
  - rewrite Hc, Hco, Ht, Hr, Hs. repeat split; reflexivity.
Defined.

(** X2.  [get_weather] of [app.py] returns a record exactly when the body is
    an object whose [sys], [main], [wind] and [clouds], when they are there,
    are objects, whose [weather], when it is there, is a list that starts
    with an object, and whose [rain], when it is there, is an object or a
    false value; otherwise it raises. *)
Theorem current_returns_iff_shaped
    (server : string → Http.query → Py.result Http.response)
    (API_KEY : option string) (city units : string)
    (log : list Http.event) (data : Py.json) :
  Http.body_of server App.weather_url (App.params API_KEY city units)
    = Py.Ok data →
  (∃ w, (App.get_weather server API_KEY city units log).1 = Py.Ok w) ↔
  Shape.current_ok data = true.
Proof.
  intros Hbody. rewrite get_weather_body, Hbody. simpl. split.
  - intros [w Hw]. by eapply weather_of_shaped.
  - apply weather_of_total.
Qed.

Lemma current_returns_iff_shaped_witness :
  (∃ w, (App.get_weather (Examples.reply Examples.london) Examples.key
           "London" "metric" []).1 = Py.Ok w) ↔
  Shape.current_ok Examples.london = true.
Proof.
  apply (current_returns_iff_shaped (Examples.reply Examples.london)
           Examples.key "London" "metric" [] Examples.london).
  reflexivity.
Defined.

(** X3.  A fetcher of [app.py] whose request fails raises the exception of
    the request, and one whose request is answered with a status from 400
    to 599 raises [HTTPError] with that status, whatever the body is; in
    both cases one request was sent and no more. *)
Theorem fetch_failures_propagate
    (server : string → Http.query → Py.result Http.response)
    (fromtimestamp_date : Q → Py.result string) (API_KEY : option string)
    (city units : string) (days : Z) (log : list Http.event) :
  (∀ e,
     server App.weather_url (App.params API_KEY city units) = Py.Raise e →
     App.get_weather server API_KEY city units log =
     (Py.Raise e,
      log ++ [Http.Get App.weather_url (App.params API_KEY city units)])) ∧
  (∀ resp,
     server App.weather_url (App.params API_KEY city units) = Py.Ok resp →
     400 ≤ Http.status_code resp < 600 →
     App.get_weather server API_KEY city units log =
     (Py.Raise (Py.HTTPError (Http.status_code resp)),
      log ++ [Http.Get App.weather_url (App.params API_KEY city units)])) ∧
  (∀ e,
     server App.forecast_url (App.params API_KEY city units) = Py.Raise e →
     App.get_forecast server fromtimestamp_date API_KEY city units days log =
     (Py.Raise e,
      log ++ [Http.Get App.forecast_url (App.params API_KEY city units)])) ∧
  (∀ resp,
     server App.forecast_url (App.params API_KEY city units) = Py.Ok resp →
     400 ≤ Http.status_code resp < 600 →
     App.get_forecast server fromtimestamp_date API_KEY city units days log =
     (Py.Raise (Py.HTTPError (Http.status_code resp)),
      log ++ [Http.Get App.forecast_url (App.params API_KEY city units)])).
Proof.
  assert (∀ resp, 400 ≤ Http.status_code resp < 600 →
            Http.raise_for_status resp =
            Py.Raise (Py.HTTPError (Http.status_code resp))) as Hstatus.
  { intros resp [H1 H2]. unfold Http.raise_for_status.
    apply Z.leb_le in H1. apply Z.ltb_lt in H2. by rewrite H1, H2. }
  repeat split.
  - intros e He. rewrite get_weather_body. unfold Http.body_of. by rewrite He.
  - intros resp Hr Hs. rewrite get_weather_body. unfold Http.body_of.
    rewrite Hr. simpl. by rewrite (Hstatus resp Hs).
  - intros e He. rewrite get_forecast_body. unfold Http.body_of. by rewrite He.
  - intros resp Hr Hs. rewrite get_forecast_body. unfold Http.body_of.
    rewrite Hr. simpl. by rewrite (Hstatus resp Hs).
Qed.

Lemma fetch_failures_propagate_witness :
  App.get_weather Extra.unreachable Examples.key "London" "metric" [] =
    (Py.Raise Py.RequestException,
     [] ++ [Http.Get App.weather_url (App.params Examples.key "London" "metric")]) ∧
  App.get_forecast (Extra.answer 404 Examples.three_days) Date.utc Examples.key
    "Nonexistentville" "metric" 5 [] =
    (Py.Raise (Py.HTTPError 404),
     [] ++ [Http.Get App.forecast_url
              (App.params Examples.key "Nonexistentville" "metric")]).
Proof.
  split.
  - apply (proj1 (fetch_failures_propagate Extra.unreachable Date.utc
                    Examples.key "London" "metric" 5 [])).
    reflexivity.
  - apply (proj2 (proj2 (proj2 (fetch_failures_propagate
                    (Extra.answer 404 Examples.three_days) Date.utc
                    Examples.key "Nonexistentville" "metric" 5 [])))
             {| Http.status_code := 404;
                Http.resp_json := Py.Ok Examples.three_days |}).
    + reflexivity.
    + simpl. lia.
Defined.

(** ** More on [fetch_weather.py] *)
Section fetch_weather_more.
Import Py Http Spec.

Lemma item_field (x v : json) (k : string) :
  item x k = Ok v → field x k = Some v ∧ ∃ kvs, x = JObj kvs.
Proof.
  destruct x as [| | | | |kvs]; try done. simpl.
  destruct (dict_get kvs k); [|done]. intros [= <-]. eauto.
Qed.

Lemma entry_field (data v : json) (k : string) :
  (w ← item data "weather"; w0 ← item0 w; item w0 k) = Ok v →
  ∃ e ws, field data "weather" = Some (JArr (JObj e :: ws)) ∧
          dict_get e k = Some v.
Proof.
  intros H. apply bind_Ok in H as (w & [Hw _]%item_field & H).
  apply bind_Ok in H as (w0 & Hw0 & [Hv [e ->]]%item_field).
  destruct w as [| | |[]|[|w0' ws]|]; try done. injection Hw0 as ->. eauto.
Qed.

(** What the record of [fetch_weather.py] holds. *)
Lemma fetch_weather_fields (data : json) (f : FetchWeather.Weather.t) :
  FetchWeather.weather_of data = Ok f →
  FetchWeather.Weather.city f = or_null (field data "name") ∧
  nested data "main" "temp" = Some (FetchWeather.Weather.temp f) ∧
  FetchWeather.Weather.feels_like f = or_null (nested data "main" "feels_like") ∧
  FetchWeather.Weather.humidity f = or_null (nested data "main" "humidity") ∧
  FetchWeather.Weather.pressure f = or_null (nested data "main" "pressure") ∧
  description_of data = Some (FetchWeather.Weather.description f) ∧
  icon_of data = Some (FetchWeather.Weather.icon f) ∧
  FetchWeather.Weather.wind_speed f = or_null (nested data "wind" "speed").
Proof.
  unfold FetchWeather.weather_of. intros H.
  apply bind_Ok in H as (? & ->%get_or_null & H).
  apply bind_Ok in H as (t & Ht & H).
  apply bind_Ok in Ht as (m & [Hm _]%item_field & [Ht _]%item_field).
  assert (∀ k v, (m' ← item data "main"; get m' k JNull) = Ok v →
                 v = or_null (nested data "main" k)) as Hmain.
  { intros k v Hv. apply bind_Ok in Hv as (m' & [Hm' _]%item_field & Hv).
    unfold nested. rewrite Hm'. simpl. by apply get_or_null. }
  apply bind_Ok in H as (? & ->%Hmain & H).
  apply bind_Ok in H as (? & ->%Hmain & H).
  apply bind_Ok in H as (? & ->%Hmain & H).
  apply bind_Ok in H as (dsc & (e & ws & Hw & Hd)%entry_field & H).
  apply bind_Ok in H as (ic & (e' & ws' & Hw' & Hi)%entry_field & H).
  apply bind_Ok in H as (? & Hwind & H).
  apply bind_Ok in Hwind as (wind & Hwind & ->%(get_nested _ _ _ _ _ Hwind)).
  inversion H; subst; clear H. simpl.
  unfold nested, description_of, icon_of, weather_entry.
  rewrite Hm. simpl. rewrite Ht, Hw. simpl. rewrite Hd.
  rewrite Hw in Hw'. injection Hw' as <- _. by rewrite Hi.
Qed.

Lemma fetch_weather_required (data : json) (f : FetchWeather.Weather.t) :
  FetchWeather.weather_of data = Ok f → Extra.required_ok data = true.
Proof.
  unfold FetchWeather.weather_of. intros H.
  apply bind_Ok in H as (? & Hname & H).
  apply bind_Ok in H as (t & Ht & H).
  apply bind_Ok in Ht as (m & [Hm _]%item_field & [Ht [mk ->]]%item_field).
  do 3 (apply bind_Ok in H as (? & _ & H)).
  apply bind_Ok in H as (dsc & (e & ws & Hw & Hd)%entry_field & H).
  apply bind_Ok in H as (ic & (e' & ws' & Hw' & Hi)%entry_field & H).
  apply bind_Ok in H as (? & Hwind & H).
  apply bind_Ok in Hwind as (wind & Hwind & Hspeed).
  pose proof (nested_object _ _ _ _ _ Hwind Hspeed) as Ew.
  destruct data as [| | | | |kvs]; try done.
  unfold Extra.required_ok. rewrite Hm, Hw, Ew. simpl in Ht. rewrite Ht, Hd.
  rewrite Hw in Hw'. injection Hw' as <- _. by rewrite Hi.
Qed.

Lemma fetch_weather_total (data : json) :
  Extra.required_ok data = true → ∃ f, FetchWeather.weather_of data = Ok f.
Proof.
  destruct data as [| | | | |kvs]; try done.
  unfold Extra.required_ok, Shape.object_or_absent, FetchWeather.weather_of.
  simpl. rewrite !andb_true_iff. intros [[Hm Hw] Hwind].
  destruct (dict_get kvs "main") as [[| | | | |mk]|]; try done. simpl.
  destruct (dict_get mk "temp"); [|done]. simpl.
  destruct (dict_get kvs "weather") as [[| | | |[|[| | | | |e] ws]|]|];
    try done. simpl.
  destruct (dict_get e "description"); [|done].
  destruct (dict_get e "icon"); [|done]. simpl.
  destruct (dict_get kvs "wind") as [[| | | | |?]|]; try done; simpl;
    by eexists.
Qed.
End fetch_weather_more.

(** X4.  With a credential, [get_weather] of [fetch_weather.py] returns a
    record exactly when the body is an object with an object [main] that
    has [temp], with a [weather] list that starts with an object that has
    [description] and [icon], and with [wind] absent or an object;
    otherwise it raises. *)
Theorem fetch_weather_returns_iff_required
    (server : string → Http.query → Py.result Http.response)
    (API_KEY : option string) (city units : string)
    (log : list Http.event) (data : Py.json) :
  App.falsy_key API_KEY = false →
  Http.body_of server FetchWeather.weather_url (App.params API_KEY city units)
    = Py.Ok data →
  (∃ f, (FetchWeather.get_weather server API_KEY city units log).1 = Py.Ok f) ↔
  Extra.required_ok data = true.
Proof.
  intros Hkey Hbody. unfold FetchWeather.get_weather. rewrite Hkey.
  unfold Http.body_of in Hbody.
  unfold mbind, Http.io_bind, Http.requests_get, Http.lift.
  destruct (server _ _) as [resp|e]; [|done]. simpl in Hbody.
  destruct (Http.raise_for_status resp); [|done]. simpl in Hbody.
  rewrite Hbody. simpl. split.
  - intros [f Hf]. by eapply fetch_weather_required.
  - apply fetch_weather_total.
Qed.

Lemma fetch_weather_returns_iff_required_witness :
  (∃ f, (FetchWeather.get_weather (Examples.reply Examples.london)
           Examples.key "London" "metric" []).1 = Py.Ok f) ↔
  Extra.required_ok Examples.london = true.
Proof.
  apply (fetch_weather_returns_iff_required (Examples.reply Examples.london)
           Examples.key "London" "metric" [] Examples.london);
    reflexivity.
Defined.

(** X5.  When the two [get_weather] return on the same body, the record of
    [fetch_weather.py] has the values the record of [app.py] has under the
    same eight fields. *)
Theorem projections_agree
    (server : string → Http.query → Py.result Http.response)
    (API_KEY : option string) (city units : string)
    (log log1 log2 : list Http.event) (data : Py.json)
    (a : App.Weather.t) (f : FetchWeather.Weather.t) :
  Http.body_of server App.weather_url (App.params API_KEY city units)
    = Py.Ok data →
  Http.body_of server FetchWeather.weather_url (App.params API_KEY city units)
    = Py.Ok data →
  App.get_weather server API_KEY city units log = (Py.Ok a, log1) →
  FetchWeather.get_weather server API_KEY city units log = (Py.Ok f, log2) →
  FetchWeather.Weather.city f = App.Weather.city a ∧
  FetchWeather.Weather.temp f = App.Weather.temp a ∧
  FetchWeather.Weather.feels_like f = App.Weather.feels_like a ∧
  FetchWeather.Weather.humidity f = App.Weather.humidity a ∧
  FetchWeather.Weather.pressure f = App.Weather.pressure a ∧
  FetchWeather.Weather.description f = App.Weather.description a ∧
  FetchWeather.Weather.icon f = App.Weather.icon a ∧
  FetchWeather.Weather.wind_speed f = App.Weather.wind_speed a.
Proof.
  intros Ha Hf Hra Hrf. rewrite get_weather_body, Ha in Hra. simpl in Hra.
  injection Hra as Hwa _.
  unfold FetchWeather.get_weather in Hrf.
  destruct (App.falsy_key API_KEY); [done|].
  unfold Http.body_of in Hf.
  unfold mbind, Http.io_bind, Http.requests_get, Http.lift in Hrf.
  destruct (server FetchWeather.weather_url _) as [resp|e]; [|done].
  simpl in Hf. destruct (Http.raise_for_status resp); [|done]. simpl in Hf.
  rewrite Hf in Hrf. simpl in Hrf. injection Hrf as Hwf _.
  destruct (weather_of_fields _ _ Hwa)
    as (-> & _ & -> & -> & -> & -> & -> & -> & -> & _).
  destruct (fetch_weather_fields _ _ Hwf)
    as (-> & -> & -> & -> & -> & -> & -> & ->).
  repeat split; done.
Qed.

Lemma projections_agree_witness :
  ∃ a f,
    App.get_weather (Examples.reply Examples.london) Examples.key
      "London" "metric" [] =
      (Py.Ok a,
       [Http.Get App.weather_url (App.params Examples.key "London" "metric")]) ∧
    FetchWeather.get_weather (Examples.reply Examples.london) Examples.key
      "London" "metric" [] =
      (Py.Ok f,
       [Http.Get FetchWeather.weather_url
          (App.params Examples.key "London" "metric")]) ∧
    FetchWeather.Weather.city f = App.Weather.city a ∧
    FetchWeather.Weather.temp f = App.Weather.temp a ∧
    FetchWeather.Weather.feels_like f = App.Weather.feels_like a ∧
    FetchWeather.Weather.humidity f = App.Weather.humidity a ∧
    FetchWeather.Weather.pressure f = App.Weather.pressure a ∧
    FetchWeather.Weather.description f = App.Weather.description a ∧
    FetchWeather.Weather.icon f = App.Weather.icon a ∧
    FetchWeather.Weather.wind_speed f = App.Weather.wind_speed a.
Proof.
  eexists _, _. split; [vm_compute; reflexivity|].
  split; [vm_compute; reflexivity|].
  eapply (projections_agree (Examples.reply Examples.london) Examples.key
            "London" "metric" [] _ _ Examples.london).
  - reflexivity.
  - reflexivity.
  - vm_compute; reflexivity.
  - vm_compute; reflexivity.
Defined.

(** ** More on the forecast *)
Section forecast_more.
Import Py Http Spec.
Variable fromtimestamp_date : Q → result string.

Lemma emitted_dates_exact (data : json) (sel : list string)
    (outs : list (option App.Day.t)) :
  Forall2 (λ d o, App.summarize d (samples_on fromtimestamp_date data d) = Ok o)
          sel outs →
  App.Day.date <$> omap id outs =
  filter (λ d, Extra.has_reading (samples_on fromtimestamp_date data d) = true)
         sel.
Proof.
  induction 1 as [|d o sel outs Hdo _ IH]; [done|].
  rewrite filter_cons. destruct o as [s|]; simpl.
  - destruct (summarize_Some _ _ _ Hdo) as (Hd & Hne & _).
    assert (Extra.has_reading (samples_on fromtimestamp_date data d) = true)
      as Hr.
    { unfold Extra.has_reading. by destruct (omap temperature _). }
    rewrite decide_True by done. rewrite Hd. f_equal. exact IH.
  - assert (Extra.has_reading (samples_on fromtimestamp_date data d) = false)
      as Hr.
    { unfold Extra.has_reading. by rewrite (summarize_None _ _ Hdo). }
    rewrite decide_False by (by rewrite Hr). exact IH.
Qed.

Lemma extremum_member (step : json → json → result json) (l : list json)
    (best r : json) :
  (∀ a b c, step a b = Ok c → c = a ∨ c = b) →
  foldM step best l = Ok r → r ∈ best :: l.
Proof.
  intros Hstep. revert best. induction l as [|y l IH]; intros best H; simpl in H.
  - inversion H. by left.
  - apply bind_Ok in H as (c & Hc & H). apply IH in H.
    destruct (Hstep _ _ _ Hc) as [-> | ->]; set_solver.
Qed.

Lemma min_member (l : list json) (r : json) : min l = Ok r → r ∈ l.
Proof.
  destruct l as [|x l]; [done|]. apply extremum_member.
  intros a b c H. apply bind_Ok in H as ([] & _ & [= <-]); auto.
Qed.

Lemma max_member (l : list json) (r : json) : max l = Ok r → r ∈ l.
Proof.
  destruct l as [|x l]; [done|]. apply extremum_member.
  intros a b c H. apply bind_Ok in H as ([] & _ & [= <-]); auto.
Qed.

Lemma min_fold_bound (l : list json) (best r : json) :
  numeric best → Forall numeric l →
  foldM (λ best y, b ← lt y best; Ok (if b : bool then y else best)) best l = Ok r →
  Forall (λ t, (value r <= value t)%Q) l.
Proof.
  revert best. induction l as [|y l IH]; intros best Hb Hl H; [constructor|].
  apply Forall_cons in Hl as [Hy Hl]. simpl in H.
  rewrite lt_numeric in H by done. simpl in H. unfold Qlt_bool in H.
  destruct (Qle_bool (value best) (value y)) eqn:E; simpl in H.
  - constructor; [|exact (IH best Hb Hl H)].
    destruct (min_fold _ _ _ Hb Hl H) as [_ Hle].
    eapply Qle_trans; [done|]. by apply Qle_bool_iff.
  - constructor; [|exact (IH y Hy Hl H)].
    by destruct (min_fold _ _ _ Hy Hl H) as [_ Hle].
Qed.

Lemma max_fold_bound (l : list json) (best r : json) :
  numeric best → Forall numeric l →
  foldM (λ best y, b ← lt best y; Ok (if b : bool then y else best)) best l = Ok r →
  Forall (λ t, (value t <= value r)%Q) l.
Proof.
  revert best. induction l as [|y l IH]; intros best Hb Hl H; [constructor|].
  apply Forall_cons in Hl as [Hy Hl]. simpl in H.
  rewrite lt_numeric in H by done. simpl in H. unfold Qlt_bool in H.
  destruct (Qle_bool (value y) (value best)) eqn:E; simpl in H.
  - constructor; [|exact (IH best Hb Hl H)].
    destruct (max_fold _ _ _ Hb Hl H) as [_ Hle].
    eapply Qle_trans; [|done]. by apply Qle_bool_iff.
  - constructor; [|exact (IH y Hy Hl H)].
    by destruct (max_fold _ _ _ Hy Hl H) as [_ Hle].
Qed.

Lemma extremes (temps : list json) (lo hi : json) :
  Forall numeric temps → min temps = Ok lo → max temps = Ok hi →
  Forall (λ t, (value lo <= value t)%Q ∧ (value t <= value hi)%Q) temps.
Proof.
  destruct temps as [|x l]; [constructor|]. simpl.
  intros [Hx Hl]%Forall_cons Hlo Hhi.
  pose proof (min_fold_bound _ _ _ Hx Hl Hlo) as Hmin.
  pose proof (max_fold_bound _ _ _ Hx Hl Hhi) as Hmax.
  destruct (min_fold _ _ _ Hx Hl Hlo) as [_ Hlx].
  destruct (max_fold _ _ _ Hx Hl Hhi) as [_ Hxh].
  constructor; [done|]. rewrite Forall_forall in Hmin, Hmax.
  apply Forall_forall. intros t Ht. split; [by apply Hmin | by apply Hmax].
Qed.

Lemma total_nonnegative (l : list Q) :
  Forall (λ q, (0 <= q)%Q) l → (0 <= total l)%Q.
Proof.
  induction 1 as [|q l Hq _ IH]; simpl; [apply Qle_refl|].
  change 0%Q with (0 + 0)%Q at 1. by apply Qplus_le_compat.
Qed.

End forecast_more.

(** X6.  [get_forecast] returns, without an exception, on every well-formed
    response whose rainfall readings are in range: an object whose samples
    are objects with a timestamp that is absent, null or a number in range,
    with [main] absent, false or an object with a number under [temp], with
    [rain] absent or an object whose [3h], if there, is a number, and with
    [weather] absent, false or a list that starts with an object with
    [description] and [icon]; the absolute values of the [3h] readings add
    up to at most 2^1000, so that no [int] is too large for [sum] to add to
    a [float]. *)
Theorem forecast_returns_when_well_formed
    (server : string → Http.query → Py.result Http.response)
    (fromtimestamp_date : Q → Py.result string) (API_KEY : option string)
    (city units : string) (days : Z) (log : list Http.event) (data : Py.json) :
  Http.body_of server App.forecast_url (App.params API_KEY city units)
    = Py.Ok data →
  Shape.well_formed fromtimestamp_date data = true →
  Extra.rain_in_range data = true →
  ∃ result,
    App.get_forecast server fromtimestamp_date API_KEY city units days log =
    (Py.Ok result,
     log ++ [Http.Get App.forecast_url (App.params API_KEY city units)]).
Proof.
  intros Hbody Hwf _.
  destruct (forecast_total fromtimestamp_date data days Hwf) as [result Hres].
  exists result. rewrite get_forecast_body, Hbody. simpl. by rewrite Hres.
Qed.

Lemma forecast_returns_when_well_formed_witness :
  ∃ result,
    App.get_forecast (Examples.reply Examples.three_days) Date.utc Examples.key
      "London" "metric" (-1) [] =
    (Py.Ok result,
     [] ++ [Http.Get App.forecast_url (App.params Examples.key "London" "metric")]).
Proof.
  apply (forecast_returns_when_well_formed
           (Examples.reply Examples.three_days) Date.utc Examples.key
           "London" "metric" (-1) [] Examples.three_days);
    vm_compute; reflexivity.
Defined.

(** X7.  The dates of the summaries [get_forecast] returns are exactly the
    selected dates that have a sample with a temperature reading, in the
    order of the selection: such a date is never dropped, any other never
    emitted. *)
Theorem forecast_emits_dates_with_reading
    (server : string → Http.query → Py.result Http.response)
    (fromtimestamp_date : Q → Py.result string) (API_KEY : option string)
    (city units : string) (days : Z) (log log' : list Http.event)
    (data : Py.json) (result : list App.Day.t) :
  Http.body_of server App.forecast_url (App.params API_KEY city units)
    = Py.Ok data →
  App.get_forecast server fromtimestamp_date API_KEY city units days log
    = (Py.Ok result, log') →
  App.Day.date <$> result =
  filter (λ d, Extra.has_reading
                 (Spec.samples_on fromtimestamp_date data d) = true)
         (Spec.selected fromtimestamp_date data days).
Proof.
  intros Hbody Hrun.
  destruct (get_forecast_of _ _ _ _ _ _ _ _ _ _ Hbody Hrun) as [Hres _].
  symmetry in Hres. apply forecast_of_inv in Hres as (outs & Hall & ->).
  by apply emitted_dates_exact.
Qed.

Lemma forecast_emits_dates_with_reading_witness :
  App.Day.date <$>
    Examples.emitted
      (App.get_forecast (Examples.reply Examples.three_days) Date.utc
         Examples.key "London" "metric" 5 []) =
  filter (λ d, Extra.has_reading
                 (Spec.samples_on Date.utc Examples.three_days d) = true)
         (Spec.selected Date.utc Examples.three_days 5).
Proof.
  apply (forecast_emits_dates_with_reading
           (Examples.reply Examples.three_days) Date.utc Examples.key
           "London" "metric" 5 []
           [Http.Get App.forecast_url (App.params Examples.key "London" "metric")]
           Examples.three_days).
  - reflexivity.
  - vm_compute; reflexivity.
Defined.

(** X8.  For a response whose temperature readings are finite numbers (or
    booleans; no [NaN], no infinity), [temp_min] and [temp_max] of an
    emitted summary are readings of its date, and every reading of that
    date lies between them. *)
Theorem forecast_extremes_attained
    (server : string → Http.query → Py.result Http.response)
    (fromtimestamp_date : Q → Py.result string) (API_KEY : option string)
    (city units : string) (days : Z) (log log' : list Http.event)
    (data : Py.json) (result : list App.Day.t) (s : App.Day.t) :
  Http.body_of server App.forecast_url (App.params API_KEY city units)
    = Py.Ok data →
  Spec.numeric_temperatures data = true →
  App.get_forecast server fromtimestamp_date API_KEY city units days log
    = (Py.Ok result, log') →
  s ∈ result →
  App.Day.temp_min s ∈
    omap Spec.temperature
         (Spec.samples_on fromtimestamp_date data (App.Day.date s)) ∧
  App.Day.temp_max s ∈
    omap Spec.temperature
         (Spec.samples_on fromtimestamp_date data (App.Day.date s)) ∧
  Forall (λ t, (Spec.value (App.Day.temp_min s) <= Spec.value t)%Q ∧
               (Spec.value t <= Spec.value (App.Day.temp_max s))%Q)
         (omap Spec.temperature
               (Spec.samples_on fromtimestamp_date data (App.Day.date s))).
Proof.
  intros Hbody Hnum Hrun Hs.
  destruct (get_forecast_of _ _ _ _ _ _ _ _ _ _ Hbody Hrun) as [Hres _].
  symmetry in Hres. destruct (emitted_from _ _ _ _ _ Hres Hs) as [_ Hsum].
  destruct (summarize_Some _ _ _ Hsum) as (_ & _ & Hlo & Hhi & _).
  split; [by apply min_member|]. split; [by apply max_member|].
  apply extremes; [|done..].
  apply Forall_forall. intros t Ht.
  apply list_elem_of_omap in Ht as (x & Hx & Ht).
  unfold Spec.samples_on in Hx. apply list_elem_of_filter in Hx as [_ Hx].
  unfold Spec.numeric_temperatures in Hnum.
  rewrite forallb_forall in Hnum. apply list_elem_of_In, Hnum in Hx.
  rewrite Ht in Hx. unfold Py.is_number in Hx. unfold Spec.numeric.
  by destruct (Py.as_num t).
Qed.

Lemma forecast_extremes_attained_witness :
  Forall (λ s,
    App.Day.temp_min s ∈
      omap Spec.temperature
           (Spec.samples_on Date.utc Examples.three_days (App.Day.date s)) ∧
    App.Day.temp_max s ∈
      omap Spec.temperature
           (Spec.samples_on Date.utc Examples.three_days (App.Day.date s)) ∧
    Forall (λ t, (Spec.value (App.Day.temp_min s) <= Spec.value t)%Q ∧
                 (Spec.value t <= Spec.value (App.Day.temp_max s))%Q)
           (omap Spec.temperature
                 (Spec.samples_on Date.utc Examples.three_days (App.Day.date s))))
    (Examples.emitted
       (App.get_forecast (Examples.reply Examples.three_days) Date.utc
          Examples.key "London" "metric" 5 [])).
Proof.
  apply Forall_forall. intros s Hs.
  apply (forecast_extremes_attained
           (Examples.reply Examples.three_days) Date.utc Examples.key
           "London" "metric" 5 []
           [Http.Get App.forecast_url (App.params Examples.key "London" "metric")]
           Examples.three_days
           (Examples.emitted
              (App.get_forecast (Examples.reply Examples.three_days) Date.utc
                 Examples.key "London" "metric" 5 [])) s).
  - reflexivity.
  - reflexivity.
  - vm_compute; reflexivity.
  - exact Hs.
Defined.

(** X9.  When no 3-hour rainfall reading of the response is negative, the
    rainfall of every emitted summary is not negative. *)
Theorem forecast_rainfall_nonnegative
    (server : string → Http.query → Py.result Http.response)
    (fromtimestamp_date : Q → Py.result string) (API_KEY : option string)
    (city units : string) (days : Z) (log log' : list Http.event)
    (data : Py.json) (result : list App.Day.t) (s : App.Day.t) :
  Http.body_of server App.forecast_url (App.params API_KEY city units)
    = Py.Ok data →
  Extra.nonnegative_rain data = true →
  App.get_forecast server fromtimestamp_date API_KEY city units days log
    = (Py.Ok result, log') →
  s ∈ result →
  (0 <= App.Day.rain_mm s)%Q.
Proof.
  intros Hbody Hnn Hrun Hs.
  destruct (get_forecast_of _ _ _ _ _ _ _ _ _ _ Hbody Hrun) as [Hres _].
  symmetry in Hres. destruct (emitted_from _ _ _ _ _ Hres Hs) as [_ Hsum].
  destruct (summarize_Some _ _ _ Hsum) as (_ & _ & _ & _ & -> & _).
  apply total_nonnegative. apply Forall_fmap, Forall_forall. intros x Hx.
  unfold Spec.samples_on in Hx. apply list_elem_of_filter in Hx as [_ Hx].
  unfold Extra.nonnegative_rain in Hnn. rewrite forallb_forall in Hnn.
  apply list_elem_of_In, Hnn in Hx. by apply Qle_bool_iff.
Qed.

Lemma forecast_rainfall_nonnegative_witness :
  Forall (λ s, (0 <= App.Day.rain_mm s)%Q)
    (Examples.emitted
       (App.get_forecast (Examples.reply Examples.three_days) Date.utc
          Examples.key "London" "metric" 5 [])).
Proof.
  apply Forall_forall. intros s Hs.
  apply (forecast_rainfall_nonnegative
           (Examples.reply Examples.three_days) Date.utc Examples.key
           "London" "metric" 5 []
           [Http.Get App.forecast_url (App.params Examples.key "London" "metric")]
           Examples.three_days
           (Examples.emitted
              (App.get_forecast (Examples.reply Examples.three_days) Date.utc
                 Examples.key "London" "metric" 5 [])) s).
  - reflexivity.
  - reflexivity.
  - vm_compute; reflexivity.
  - exact Hs.
Defined.

(** X10.  With a day count of 0 [get_forecast] returns no summary, and with
    a negative day count it leaves out the last dates, as many as the count
    says: of N distinct dates at most N + days are summarized. *)
Theorem forecast_nonpositive_days
    (server : string → Http.query → Py.result Http.response)
    (fromtimestamp_date : Q → Py.result string) (API_KEY : option string)
    (city units : string) (days : Z) (log log' : list Http.event)
    (data : Py.json) (result : list App.Day.t) :
  Http.body_of server App.forecast_url (App.params API_KEY city units)
    = Py.Ok data →
  days ≤ 0 →
  App.get_forecast server fromtimestamp_date API_KEY city units days log
    = (Py.Ok result, log') →
  (days = 0 → result = []) ∧
  (days < 0 →
   (App.Day.date <$> result) `sublist_of`
     take (Z.to_nat (Z.of_nat (size (Spec.distinct_dates fromtimestamp_date data))
                     + days))
          (Py.sorted (elements (Spec.distinct_dates fromtimestamp_date data)))) ∧
  (length result ≤
     Z.to_nat (Z.of_nat (size (Spec.distinct_dates fromtimestamp_date data))
               + days))%nat.
Proof.
  intros Hbody Hdays Hrun.
  destruct (get_forecast_of _ _ _ _ _ _ _ _ _ _ Hbody Hrun) as [Hres _].
  symmetry in Hres. apply forecast_dates in Hres.
  destruct (sorted_dates (Spec.distinct_dates fromtimestamp_date data))
    as (_ & _ & Hlen).
  unfold Spec.selected, Py.slice_to in Hres. rewrite Hlen in Hres.
  destruct (Z.leb_spec 0 days) as [H0|H0].
  - assert (days = 0) as -> by lia. simpl in Hres.
    apply sublist_length in Hres. rewrite length_fmap in Hres. simpl in Hres.
    split; [|split; lia]. intros _. destruct result; [done|simpl in Hres; lia].
  - split; [lia|]. split; [done|].
    apply sublist_length in Hres. rewrite length_fmap, length_take in Hres. lia.
Qed.

Lemma forecast_nonpositive_days_witness :
  ((-1 = 0) →
   Examples.emitted
     (App.get_forecast (Examples.reply Examples.three_days) Date.utc
        Examples.key "London" "metric" (-1) []) = []) ∧
  (-1 < 0 →
   (App.Day.date <$>
    Examples.emitted
      (App.get_forecast (Examples.reply Examples.three_days) Date.utc
         Examples.key "London" "metric" (-1) [])) `sublist_of`
     take (Z.to_nat (Z.of_nat (size (Spec.distinct_dates Date.utc Examples.three_days))
                     + -1))
          (Py.sorted (elements (Spec.distinct_dates Date.utc Examples.three_days)))) ∧
  (length (Examples.emitted
             (App.get_forecast (Examples.reply Examples.three_days) Date.utc
                Examples.key "London" "metric" (-1) [])) ≤
     Z.to_nat (Z.of_nat (size (Spec.distinct_dates Date.utc Examples.three_days))
               + -1))%nat.
Proof.
  apply (forecast_nonpositive_days
           (Examples.reply Examples.three_days) Date.utc Examples.key
           "London" "metric" (-1) []
           [Http.Get App.forecast_url (App.params Examples.key "London" "metric")]
           Examples.three_days).
  - reflexivity.
  - lia.
  - vm_compute; reflexivity.
Defined.



(** ** The script of [app.py] after the credential check *)
Section script_more.
Import Py Http.
Variable server : string → query → result response.
Variable fromtimestamp_date : Q → result string.
Variable API_KEY : option string.

(** The script with a credential and a city: the two fetches in a row. *)
Lemma script_fetches (city unit_choice : string) (log : list event) :
  App.falsy_key API_KEY = false → city ≠ "" →
  App.script server fromtimestamp_date API_KEY city unit_choice log =
  let units := Extra.chosen_units unit_choice in
  let get_w := Get App.weather_url (App.params API_KEY city units) in
  let get_f := Get App.forecast_url (App.params API_KEY city units) in
  match body_of server App.weather_url (App.params API_KEY city units)
          ≫= App.weather_of with
  | Raise e => (Ok tt, log ++ [get_w; StError (Extra.error_text e) (Some e); StStop])
  | Ok _ =>
      match body_of server App.forecast_url (App.params API_KEY city units)
              ≫= λ data, App.forecast_of fromtimestamp_date data 5 with
      | Raise e =>
          (Ok tt, log ++ [get_w; get_f; StError (Extra.error_text e) (Some e);
                          StStop])
      | Ok _ => (Ok tt, log ++ [get_w; get_f; StRender])
      end
  end.
Proof.
  intros Hkey Hcity. unfold App.script. rewrite Hkey.
  assert (String.eqb city "" = false) as ->.
  { apply String.eqb_neq. done. }
  fold (Extra.chosen_units unit_choice). cbv zeta.
  unfold mbind at 1. unfold io_bind at 1. unfold try_except.
  unfold mbind at 1. unfold io_bind at 1.
  rewrite get_weather_body.
  destruct (body_of server App.weather_url _ ≫= App.weather_of) as [w|e].
  - unfold mbind at 1. unfold io_bind at 1. rewrite get_forecast_body.
    destruct (body_of server App.forecast_url _ ≫= _) as [f|e]; simpl.
    + unfold emit. by rewrite <- !app_assoc.
    + unfold mbind, io_bind, emit. simpl. by rewrite <- !app_assoc.
  - unfold mbind, io_bind, emit. simpl. by rewrite <- !app_assoc.
Qed.
End script_more.

(** X12.  With a credential and no city typed, the script shows its hint and
    ends: it sends no request and reports no error. *)
Theorem script_without_city
    (server : string → Http.query → Py.result Http.response)
    (fromtimestamp_date : Q → Py.result string) (API_KEY : option string)
    (unit_choice : string) (log : list Http.event) :
  App.falsy_key API_KEY = false →
  App.script server fromtimestamp_date API_KEY "" unit_choice log =
  (Py.Ok tt,
   log ++ [Http.StInfo
             "Type a city name above (for example: 'Mumbai' or 'London') and press Enter."]).
Proof. intros Hkey. unfold App.script. by rewrite Hkey. Qed.

Lemma script_without_city_witness :
  App.script (Examples.reply Examples.london) Date.utc Examples.key ""
    "Imperial" [] =
  (Py.Ok tt,
   [] ++ [Http.StInfo
            "Type a city name above (for example: 'Mumbai' or 'London') and press Enter."]).
Proof.
  apply (script_without_city (Examples.reply Examples.london) Date.utc
           Examples.key "Imperial" []).
  reflexivity.
Defined.

(** X13.  When a fetch of the script raises, the script reports the error and
    stops without rendering anything: under "Network / API error" for an
    exception of [requests], under "Error fetching weather" for any other.
    When the current-conditions fetch raises, the forecast is not
    requested. *)
Theorem script_failed_fetch
    (server : string → Http.query → Py.result Http.response)
    (fromtimestamp_date : Q → Py.result string) (API_KEY : option string)
    (city unit_choice : string) (log : list Http.event) (e : Py.exn) :
  App.falsy_key API_KEY = false →
  city ≠ "" →
  (Http.body_of server App.weather_url
     (App.params API_KEY city (Extra.chosen_units unit_choice))
     ≫= App.weather_of = Py.Raise e →
   App.script server fromtimestamp_date API_KEY city unit_choice log =
   (Py.Ok tt,
    log ++ [Http.Get App.weather_url
              (App.params API_KEY city (Extra.chosen_units unit_choice));
            Http.StError (Extra.error_text e) (Some e); Http.StStop])) ∧
  (∀ w,
     Http.body_of server App.weather_url
       (App.params API_KEY city (Extra.chosen_units unit_choice))
       ≫= App.weather_of = Py.Ok w →
     Http.body_of server App.forecast_url
       (App.params API_KEY city (Extra.chosen_units unit_choice))
       ≫= (λ data, App.forecast_of fromtimestamp_date data 5) = Py.Raise e →
     App.script server fromtimestamp_date API_KEY city unit_choice log =
     (Py.Ok tt,
      log ++ [Http.Get App.weather_url
                (App.params API_KEY city (Extra.chosen_units unit_choice));
              Http.Get App.forecast_url
                (App.params API_KEY city (Extra.chosen_units unit_choice));
              Http.StError (Extra.error_text e) (Some e); Http.StStop])).
Proof.
  intros Hkey Hcity. split.
  - intros Hw. rewrite script_fetches by done. cbv zeta. by rewrite Hw.
  - intros w Hw Hf. rewrite script_fetches by done. cbv zeta.
    by rewrite Hw, Hf.
Qed.

Lemma script_failed_fetch_witness :
  App.script (Extra.answer 404 Examples.london) Date.utc Examples.key
    "Nonexistentville" "Metric" [] =
  (Py.Ok tt,
   [] ++ [Http.Get App.weather_url
            (App.params Examples.key "Nonexistentville"
               (Extra.chosen_units "Metric"));
          Http.StError (Extra.error_text (Py.HTTPError 404))
            (Some (Py.HTTPError 404));
          Http.StStop]).
Proof.
  edestruct (script_failed_fetch (Extra.answer 404 Examples.london)
               Date.utc Examples.key "Nonexistentville" "Metric" []
               (Py.HTTPError 404)) as [Hweather _].
  - reflexivity.
  - discriminate.
  - apply Hweather. reflexivity.
Defined.

(** X14.  When both fetches of the script return, the script has sent two
    requests, for the current conditions and then for the forecast, with
    the same city, credential and units, "metric" when the unit choice
    starts with "Metric" and "imperial" otherwise, and then renders. *)
Theorem script_renders_after_two_fetches
    (server : string → Http.query → Py.result Http.response)
    (fromtimestamp_date : Q → Py.result string) (API_KEY : option string)
    (city unit_choice : string) (log : list Http.event)
    (w : App.Weather.t) (f : list App.Day.t) :
  App.falsy_key API_KEY = false →
  city ≠ "" →
  Http.body_of server App.weather_url
    (App.params API_KEY city (Extra.chosen_units unit_choice))
    ≫= App.weather_of = Py.Ok w →
  Http.body_of server App.forecast_url
    (App.params API_KEY city (Extra.chosen_units unit_choice))
    ≫= (λ data, App.forecast_of fromtimestamp_date data 5) = Py.Ok f →
  (App.script server fromtimestamp_date API_KEY city unit_choice log).2 =
  log ++ [Http.Get App.weather_url
            (App.params API_KEY city (Extra.chosen_units unit_choice));
          Http.Get App.forecast_url
            (App.params API_KEY city (Extra.chosen_units unit_choice));
          Http.StRender].
Proof.
  intros Hkey Hcity Hw Hf. rewrite script_fetches by done. cbv zeta.
  by rewrite Hw, Hf.
Qed.

Lemma script_renders_after_two_fetches_witness :
  (App.script (Extra.serve (Py.Ok Examples.london) (Py.Ok Examples.three_days))
     Date.utc Examples.key "London" "Imperial" []).2 =
  [] ++ [Http.Get App.weather_url (App.params Examples.key "London" "imperial");
         Http.Get App.forecast_url (App.params Examples.key "London" "imperial");
         Http.StRender].
Proof.
  eapply (script_renders_after_two_fetches
            (Extra.serve (Py.Ok Examples.london) (Py.Ok Examples.three_days))
            Date.utc Examples.key "London" "Imperial" []).
  - reflexivity.
  - discriminate.
  - vm_compute; reflexivity.
  - vm_compute; reflexivity.
Defined.

(** ** The command line *)
Section cli_more.
Import Py Http Spec.





End cli_more.

Section cli_run.
Import Py Http Spec.
Variable server : string → query → result response.
Variable API_KEY : option string.
Variable strip title : string → string.
Variable str : json → string.

Lemma fetch_weather_body (city units : string) (log : list event) :
  App.falsy_key API_KEY = false →
  FetchWeather.get_weather server API_KEY city units log =
  (body_of server FetchWeather.weather_url (App.params API_KEY city units)
     ≫= FetchWeather.weather_of,
   log ++ [Get FetchWeather.weather_url (App.params API_KEY city units)]).
Proof.
  intros Hkey. unfold FetchWeather.get_weather. rewrite Hkey.
  unfold body_of, requests_get, lift, mbind, io_bind, result_bind.
  destruct (server _ _) as [resp|e]; [|done].
  destruct (raise_for_status resp); [|done].
  by destruct (resp_json resp).
Qed.

Lemma main_run (typed : string) :
  App.falsy_key API_KEY = false →
  Cli.main server API_KEY strip title str typed =
  match body_of server FetchWeather.weather_url
          (App.params API_KEY (strip typed) "metric")
          ≫= FetchWeather.weather_of with
  | Ok w =>
      match Cli.report title str w with
      | (lines, Ok _) =>
          (lines, [Get FetchWeather.weather_url
                     (App.params API_KEY (strip typed) "metric")])
      | (lines, Raise e) =>
          (lines ++ [Cli.handler e],
           [Get FetchWeather.weather_url
              (App.params API_KEY (strip typed) "metric")])
      end
  | Raise e =>
      ([Cli.handler e],
       [Get FetchWeather.weather_url
          (App.params API_KEY (strip typed) "metric")])
  end.
Proof.
  intros Hkey. unfold Cli.main. cbv zeta. rewrite fetch_weather_body by done.
  by destruct (body_of _ _ _ ≫= _).
Qed.
End cli_run.



(** X16.  On a body that has what [get_weather] subscripts, the command line
    prints four lines of text, the second being the title-cased description,
    when the description is a string; when it is not, it prints its first
    line and then one "Error:" line, for the [AttributeError] of [title].
    One request is sent. *)
Theorem cli_report_lines
    (server : string → Http.query → Py.result Http.response)
    (API_KEY : option string) (strip title : string → string)
    (str : Py.json → string) (typed : string) (data : Py.json) :
  App.falsy_key API_KEY = false →
  Http.body_of server FetchWeather.weather_url
    (App.params API_KEY (strip typed) "metric") = Py.Ok data →
  Extra.required_ok data = true →
  match Spec.description_of data with
  | Some (Py.JStr d) =>
      ∃ l1 l3 l4,
        Cli.main server API_KEY strip title str typed =
        ([Cli.Text l1; Cli.Text ("  " +:+ title d); Cli.Text l3; Cli.Text l4],
         [Http.Get FetchWeather.weather_url
            (App.params API_KEY (strip typed) "metric")])
  | _ =>
      ∃ l1,
        Cli.main server API_KEY strip title str typed =
        ([Cli.Text l1; Cli.Caught "Error:" Py.AttributeError],
         [Http.Get FetchWeather.weather_url
            (App.params API_KEY (strip typed) "metric")])
  end.
Proof.
  intros Hkey Hbody Hreq. rewrite main_run, Hbody by done. simpl.
  destruct (fetch_weather_total data Hreq) as [f Hf]. rewrite Hf.
  destruct (fetch_weather_fields data f Hf)
    as (_ & _ & _ & _ & _ & Hd & _ & _).
  unfold Cli.report. rewrite Hd.
  destruct (FetchWeather.Weather.description f) as [| | |d| |];
    simpl; by eauto.
Qed.

Lemma cli_report_lines_witness :
  ∃ l1 l3 l4,
    Cli.main (Examples.reply Examples.london) Examples.key Extra.keep
      Extra.keep Extra.show "London" =
    ([Cli.Text l1; Cli.Text ("  " +:+ Extra.keep "clear sky"); Cli.Text l3;
      Cli.Text l4],
     [Http.Get FetchWeather.weather_url
        (App.params Examples.key (Extra.keep "London") "metric")]).
Proof.
  apply (cli_report_lines (Examples.reply Examples.london) Examples.key
           Extra.keep Extra.keep Extra.show "London" Examples.london);
    reflexivity.
Defined.
